(** * Daily-Brief-Agent: unanswered-mention reconciliation and the
      processed-mention ledger

    A shallow embedding of

    - [src/utils/mention_tracker.py]      (the ledger of processed mentions)
    - [src/integrations/asana_client.py]  ([extract_mentions_from_html] and
                                           [get_unanswered_mentions])

    followed by the properties of the two components.

    The collaborators of the two components are inputs of the model: the
    Asana calls of the client ([get_user_gid_by_name],
    [get_tasks_modified_since], [get_stories_for_task]), the clock, the
    state of the ledger file and the fate of each write.  The failures the
    source guards with [try]/[except] ([open], [json.load], [json.dump],
    [fromisoformat], the HTML parser) are modelled together with their
    handlers; [os.path.exists] and [os.makedirs], which the source calls
    unguarded, are taken to succeed, and instants are taken within the
    range of [datetime], where neither [astimezone] nor the subtraction of
    the lookback overflows. *)

From Stdlib Require Import Ascii.
From stdpp Require Import gmap strings list.

Set Warnings "-register-all".

Local Open Scope string_scope.
Local Open Scope Z_scope.
Local Open Scope list_scope.

(* ===================================================================== *)
(** * Python values, exceptions and JSON documents                       *)
(* ===================================================================== *)

Module Py.

(** The exception classes the modelled code can meet.  All of them are
    subclasses of [Exception]. *)
Inductive exn : Set :=
| OSError | JSONDecodeError | AttributeError | TypeError | ValueError.

(** What a call does: it returns a value or raises. *)
Inductive outcome (A : Type) : Type :=
| Return (a : A)
| Raise (e : exn).
Arguments Return {A} a.
Arguments Raise {A} e.

Definition bind {A B} (x : outcome A) (k : A → outcome B) : outcome B :=
  match x with
  | Return a => k a
  | Raise e => Raise e
  end.

(** A loop whose body may raise: the first exception ends the loop. *)
Fixpoint for_each {S A} (body : S → A → outcome S) (xs : list A) (s : S)
  : outcome S :=
  match xs with
  | [] => Return s
  | x :: xs' => bind (body s x) (for_each body xs')
  end.

(** Hashable values that can sit in a [set]: [None], integers (Python
    equates [True] with [1] and [False] with [0], also inside sets) and
    strings. *)
Inductive key : Set :=
| KNone
| KInt (n : Z)
| KStr (s : string).

#[global] Instance key_eq_dec : EqDecision key.
Proof. solve_decision. Defined.

Definition key_enc (k : key) : unit + Z + string :=
  match k with
  | KNone => inl (inl ())
  | KInt n => inl (inr n)
  | KStr s => inr s
  end.

Definition key_dec (x : unit + Z + string) : key :=
  match x with
  | inl (inl _) => KNone
  | inl (inr n) => KInt n
  | inr s => KStr s
  end.

#[global] Instance key_countable : Countable key.
Proof. refine (inj_countable' key_enc key_dec _). by intros []. Defined.

(** Truth value of a key: [None], [0] and [''] are false. *)
Definition truthy (k : key) : bool :=
  match k with
  | KNone => false
  | KInt n => negb (Z.eqb n 0)
  | KStr s => negb (String.eqb s "")
  end.

(** JSON documents as [json.load] returns them (numbers are restricted
    to integers; the ledger stores no fractions). *)
Inductive json : Type :=
| JNull
| JBool (b : bool)
| JNum (n : Z)
| JStr (s : string)
| JArr (xs : list json)
| JObj (kvs : list (string * json)).

(** [d.get(k)] on the dict built from the members of a JSON object: of
    two members with one name the later one wins. *)
Fixpoint dict_get {V} (k : string) (kvs : list (string * V)) : option V :=
  match kvs with
  | [] => None
  | (k', v) :: rest =>
      match dict_get k rest with
      | Some v' => Some v'
      | None => if String.eqb k' k then Some v else None
      end
  end.

(** [hash(x)] for the value of a JSON document: lists and dicts are
    unhashable. *)
Definition key_of_json (j : json) : outcome key :=
  match j with
  | JNull => Return KNone
  | JBool b => Return (KInt (if b then 1 else 0))
  | JNum n => Return (KInt n)
  | JStr s => Return (KStr s)
  | JArr _ | JObj _ => Raise TypeError
  end.

Definition json_of_key (k : key) : json :=
  match k with
  | KNone => JNull
  | KInt n => JNum n
  | KStr s => JStr s
  end.

Fixpoint keys_of_jsons (xs : list json) : outcome (list key) :=
  match xs with
  | [] => Return []
  | x :: xs' =>
      bind (key_of_json x) (λ k,
      bind (keys_of_jsons xs') (λ ks, Return (k :: ks)))
  end.

Fixpoint chars (s : string) : list key :=
  match s with
  | EmptyString => []
  | String c s' => KStr (String c EmptyString) :: chars s'
  end.

(** [set(x)]: iterates a list, the characters of a string or the keys of
    a dict; anything else is not iterable. *)
Definition set_of_json (j : json) : outcome (gset key) :=
  match j with
  | JArr xs => bind (keys_of_jsons xs) (λ ks, Return (list_to_set ks))
  | JStr s => Return (list_to_set (chars s))
  | JObj kvs => Return (list_to_set (KStr <$> kvs.*1))
  | JNull | JBool _ | JNum _ => Raise TypeError
  end.

End Py.

Import Py.

#[global] Instance outcome_bind : MBind outcome := λ A B k x, Py.bind x k.
#[global] Instance outcome_ret : MRet outcome := λ A a, Return a.

(* ===================================================================== *)
(** * The ledger of processed mentions: [src/utils/mention_tracker.py]   *)
(* ===================================================================== *)

Module MentionTracker.

(** ** The file system and the log, as far as the module touches them *)

(** [TRACKER_FILE], as [os.path.exists], [open] and [json.load] find it. *)
Inductive file_state : Type :=
| NoFile                 (* os.path.exists(TRACKER_FILE) is False *)
| Unreadable             (* the file exists, open(..., 'r') raises OSError *)
| Garbage                (* the text is no JSON document: JSONDecodeError *)
| Document (j : json).   (* json.load returns j *)

Inductive level : Set := DEBUG | INFO | ERROR.

Record world : Type := World {
  data_dir : bool;                     (* the directory of TRACKER_FILE exists *)
  tracker_file : file_state;
  log : list (level * string);         (* lines written by [logger], oldest first *)
}.

Definition logger (lv : level) (msg : string) (w : world) : world :=
  World (data_dir w) (tracker_file w) (log w ++ [(lv, msg)]).

Definition makedirs (w : world) : world :=
  World true (tracker_file w) (log w).

Definition write_file (f : file_state) (w : world) : world :=
  World (data_dir w) f (log w).

(** How [with open(TRACKER_FILE, 'w') as f: json.dump(data, f)] can end.
    [open(..., 'w')] truncates the file before anything is written, so a
    failure after it leaves an incomplete document behind. *)
Inductive write_outcome : Set :=
| WriteOk        (* the block completes *)
| OpenRaises     (* open raises: the file is left as it was *)
| DumpRaises.    (* open succeeded, json.dump or the closing flush raises *)

(** ** [_ensure_data_dir] *)
Definition _ensure_data_dir (w : world) : world :=
  if data_dir w then w
  else logger INFO "Created data directory" (makedirs w).

(** ** [load_processed_mentions] *)

(** The dict the function returns; a field is [None] when the dict has no
    such key.  ['processed_ids'] is always set. *)
Record tracker_data : Type := TrackerData {
  processed_ids : gset key;
  last_updated : option json;
  total_processed : option json;
}.

Definition empty_record : tracker_data :=
  TrackerData ∅ (Some JNull) (Some (JNum 0)).

(** [with open(TRACKER_FILE, 'r') as f: data = json.load(f)] *)
Definition json_load (f : file_state) : outcome json :=
  match f with
  | NoFile | Unreadable => Raise OSError
  | Garbage => Raise JSONDecodeError
  | Document j => Return j
  end.

(** The body of the [try] block. [data.get] exists on a dict only. *)
Definition load_body (f : file_state) : outcome tracker_data :=
  data ← json_load f;
  match data with
  | JObj kvs =>
      ids ← set_of_json (default (JArr []) (dict_get "processed_ids" kvs));
      Return (TrackerData ids (dict_get "last_updated" kvs)
                              (dict_get "total_processed" kvs))
  | _ => Raise AttributeError
  end.

Definition load_processed_mentions (w : world) : world * outcome tracker_data :=
  let w := _ensure_data_dir w in
  match tracker_file w with
  | NoFile => (w, Return empty_record)
  | f =>
      match load_body f with
      | Return data => (w, Return data)
      | Raise e =>
          (logger ERROR "Error loading processed mentions" w,
           Return empty_record)
      end
  end.

(** ** [save_processed_mentions] *)

(** The dict handed to [json.dump]; [list(all_ids)] enumerates the set in
    an order of its own. *)
Definition saved_document (all_ids : gset key) (now : string) : json :=
  JObj [ ("processed_ids", JArr (json_of_key <$> elements all_ids));
         ("last_updated", JStr now);
         ("total_processed", JNum (Z.of_nat (size all_ids))) ].

(** [now] is [datetime.now(Config.TIMEZONE).isoformat()], [wr] is the way
    the write ends. *)
Definition save_processed_mentions (wr : write_outcome) (now : string)
    (mention_ids : gset key) (existing_data : option tracker_data)
    (w : world) : world * outcome unit :=
  let w := _ensure_data_dir w in
  let '(w, loaded) :=
    match existing_data with
    | None => load_processed_mentions w
    | Some d => (w, Return d)
    end in
  match loaded with
  | Raise e => (w, Raise e)
  | Return existing =>
      let all_ids := processed_ids existing ∪ mention_ids in
      let data := saved_document all_ids now in
      match wr with
      | WriteOk =>
          (logger INFO "Saved new processed mentions"
             (write_file (Document data) w), Return ())
      | OpenRaises =>
          (logger ERROR "Error saving processed mentions" w, Return ())
      | DumpRaises =>
          (logger ERROR "Error saving processed mentions"
             (write_file Garbage w), Return ())
      end
  end.

(** ** Mention dictionaries *)

(** The ledger reads one thing of a mention dict:
    [mention.get('mention_story_gid')], which is [None] when the key is
    missing. *)
Class MentionDict (M : Type) := mention_story_gid : M → key.

(** A bare dict, as a list of its items. *)
#[global] Instance dict_mention : MentionDict (list (string * key)) :=
  λ m, default KNone (dict_get "mention_story_gid" m).

Section Ledger.
Context {M : Type} `{MentionDict M}.

(** ** [filter_new_mentions] *)

(** One turn of the [for mention in mentions] loop. *)
Definition filter_step (ids : gset key) (st : world * list M) (mention : M)
  : world * list M :=
  let '(w, new_mentions) := st in
  let story_gid := mention_story_gid mention in
  if truthy story_gid && negb (bool_decide (story_gid ∈ ids))
  then (w, new_mentions ++ [mention])
  else if bool_decide (story_gid ∈ ids)
       then (logger DEBUG "Skipping already-processed mention" w, new_mentions)
       else (w, new_mentions).

Definition filter_new_mentions (mentions : list M) (w : world)
  : world * outcome (list M) :=
  let '(w, loaded) := load_processed_mentions w in
  match loaded with
  | Raise e => (w, Raise e)
  | Return tracker_data =>
      let ids := processed_ids tracker_data in
      let '(w, new_mentions) := foldl (filter_step ids) (w, []) mentions in
      let w :=
        if bool_decide (length mentions ≠ length new_mentions)
        then logger INFO "Filtered already-processed mentions" w
        else w in
      (w, Return new_mentions)
  end.

(** ** [mark_mentions_as_processed] *)
Definition mention_ids_of (mentions : list M) : gset key :=
  list_to_set (filter (λ k, truthy k = true) (mention_story_gid <$> mentions)).

Definition mark_mentions_as_processed (wr : write_outcome) (now : string)
    (mentions : list M) (w : world) : world * outcome unit :=
  let mention_ids := mention_ids_of mentions in
  if decide (mention_ids = ∅) then (w, Return ())
  else save_processed_mentions wr now mention_ids None w.

End Ledger.

(** ** [clear_old_processed_mentions]: the body is [pass]. *)
Definition clear_old_processed_mentions (days_to_keep : Z) (w : world) : world := w.

End MentionTracker.

(* ===================================================================== *)
(** * The reconciler: [src/integrations/asana_client.py]                 *)
(* ===================================================================== *)

Module AsanaClient.

(** Instants (aware [datetime] values) are counted in microseconds, the
    resolution of [datetime]. *)
Definition hour : Z := 3600000000.

(** The text of a ['created_at'] field, as [datetime.fromisoformat] reads
    it once ['Z'] is replaced by ['+00:00']. *)
Inductive iso_text : Set :=
| Malformed              (* fromisoformat raises ValueError *)
| IsoTime (t : Z).       (* the instant the text denotes *)

(** An [<a>] element of a comment's [html_text]. *)
Record anchor : Set := Anchor {
  data_asana_type : option string;   (* link.get('data-asana-type') *)
  data_asana_gid : option string;    (* link.get('data-asana-gid') *)
  get_text : string;                 (* link.get_text() *)
}.

(** A comment's [html_text], as [BeautifulSoup] sees it. *)
Inductive markup : Set :=
| Blank                          (* '' or None: [not html_text] *)
| Unparsable                     (* the parser raises *)
| Markup (links : list anchor).  (* soup.find_all('a'), in document order *)

(** The dicts [get_tasks_modified_since] returns; [None] is a missing key. *)
Module Task.
Record t : Set := Make {
  gid : string;
  name : option string;
  permalink_url : option string;
  project_name : option string;
  notes : option string;
}.
End Task.

(** The dicts [get_stories_for_task] returns. *)
Module Comment.
Record t : Set := Make {
  gid : string;
  created_at : option iso_text;      (* story.get('created_at') *)
  author_name : string;
  author_gid : option string;        (* created_by.get('gid') *)
  text : string;
  html_text : markup;
}.
End Comment.

(** The dicts [get_unanswered_mentions] returns.  ['comment_created_at']
    is kept as the instant rather than its ISO text; the float
    ['hours_since_mention'] is left out. *)
Module Mention.
Record t : Set := Make {
  task_gid : string;
  task_name : string;
  task_url : string;
  project_name : string;
  task_description : string;
  mention_story_gid : string;
  mentioned_user_name : string;
  mentioned_user_gid : string;
  author_name : string;
  author_gid : option string;
  comment_text : string;
  comment_created_at : Z;
  recent_comments : list Comment.t;
}.
End Mention.

(** The calls the method makes on the rest of the client. *)
Record client : Type := Client {
  get_user_gid_by_name : string → option string;
  get_tasks_modified_since : Z → list Task.t;
  get_stories_for_task : string → list Comment.t;
}.

(** ** [extract_mentions_from_html] *)

Record user_ref : Set := UserRef { user_gid : string; user_name : string }.

(** [s.lstrip('@')] *)
Fixpoint lstrip_at (s : string) : string :=
  match s with
  | String c s' => if Ascii.eqb c "@"%char then lstrip_at s' else s
  | EmptyString => s
  end.

Definition mention_of_link (link : anchor) : list user_ref :=
  match data_asana_gid link with
  | Some g => if String.eqb g "" then [] else [UserRef g (lstrip_at (get_text link))]
  | None => []
  end.

Definition extract_mentions_from_html (html : markup) : list user_ref :=
  match html with
  | Blank => []
  | Unparsable => []
  | Markup links =>
      let mention_links :=
        filter (λ l, data_asana_type l = Some "user") links in
      mention_links ≫= mention_of_link
  end.

(** ** [get_unanswered_mentions] *)

(** [d[k] = v] on a dict kept as the list of its items in insertion order. *)
Fixpoint dict_set (k v : string) (d : list (string * string))
  : list (string * string) :=
  match d with
  | [] => [(k, v)]
  | (k', v') :: d' =>
      if String.eqb k' k then (k, v) :: d' else (k', v') :: dict_set k v d'
  end.

Definition resolve (c : client) (monitored : list (string * string))
    (name : string) : list (string * string) :=
  match get_user_gid_by_name c name with
  | Some gid => if String.eqb gid "" then monitored else dict_set gid name monitored
  | None => monitored
  end.

(** [datetime.fromisoformat(comment['created_at'].replace('Z', '+00:00'))]:
    [None] has no [replace]. *)
Definition parse_created_at (comment : Comment.t) : outcome Z :=
  match Comment.created_at comment with
  | None => Raise AttributeError
  | Some Malformed => Raise ValueError
  | Some (IsoTime t) => Return t
  end.

Record mention_data : Set := MentionData {
  comment : Comment.t;
  mentioned_at : Z;
}.

(** One turn of [for comment in comments]; the state is
    [(mentions_to_user, user_last_reply_at)]. *)
Definition walk_step (user_gid : string)
    (st : list mention_data * option Z) (comment : Comment.t)
  : outcome (list mention_data * option Z) :=
  let '(mentions_to_user, user_last_reply_at) := st in
  match parse_created_at comment with
  | Raise ValueError | Raise TypeError => Return st
  | Raise e => Raise e
  | Return comment_time =>
      if decide (Comment.author_gid comment = Some user_gid) then
        match user_last_reply_at with
        | None => Return (mentions_to_user, Some comment_time)
        | Some last =>
            if last <? comment_time
            then Return (mentions_to_user, Some comment_time)
            else Return st
        end
      else
        let mentions := extract_mentions_from_html (Comment.html_text comment) in
        let hits := filter (λ m, AsanaClient.user_gid m = user_gid) mentions in
        Return (mentions_to_user ++ ((λ _, MentionData comment comment_time) <$> hits),
                user_last_reply_at)
  end.

Definition walk (user_gid : string) (comments : list Comment.t)
  : outcome (list mention_data * option Z) :=
  for_each (walk_step user_gid) comments ([], None).

(** [comments[-5:]] *)
Definition last5 {A} (l : list A) : list A := drop (length l - 5) l.

Definition has_replied (user_last_reply_at : option Z) (mention_time : Z) : bool :=
  match user_last_reply_at with
  | None => false
  | Some last => mention_time <? last
  end.

Definition report (task : Task.t) (comments : list Comment.t)
    (user_gid user_name : string) (m : mention_data) : Mention.t :=
  let c := comment m in
  Mention.Make
    (Task.gid task)
    (default "Unknown Task" (Task.name task))
    (default ("https://app.asana.com/0/0/" +:+ Task.gid task) (Task.permalink_url task))
    (default "No Project" (Task.project_name task))
    (default "" (Task.notes task))
    (Comment.gid c) user_name user_gid
    (Comment.author_name c) (Comment.author_gid c)
    (Comment.text c) (mentioned_at m)
    (last5 comments).

(** One turn of [for mention_data in mentions_to_user]. *)
Definition select_step (since : Z) (task : Task.t) (comments : list Comment.t)
    (user_gid user_name : string) (user_last_reply_at : option Z)
    (unanswered : list Mention.t) (m : mention_data) : list Mention.t :=
  let mention_time := mentioned_at m in
  if mention_time <? since then unanswered
  else if has_replied user_last_reply_at mention_time then unanswered
  else unanswered ++ [report task comments user_gid user_name m].

(** One turn of [for user_gid, user_name in monitored_user_gids.items()]. *)
Definition check_user (since : Z) (task : Task.t) (comments : list Comment.t)
    (unanswered : list Mention.t) (user : string * string)
  : outcome (list Mention.t) :=
  let '(user_gid, user_name) := user in
  '(mentions_to_user, user_last_reply_at) ← walk user_gid comments;
  Return (foldl (select_step since task comments user_gid user_name
                   user_last_reply_at) unanswered mentions_to_user).

(** One turn of [for task in tasks]. *)
Definition check_task (c : client) (since : Z)
    (monitored_user_gids : list (string * string))
    (unanswered : list Mention.t) (task : Task.t) : outcome (list Mention.t) :=
  let comments := get_stories_for_task c (Task.gid task) in
  match comments with
  | [] => Return unanswered
  | _ => for_each (check_user since task comments) monitored_user_gids unanswered
  end.

(** [now] is the reading of [datetime.now(Config.TIMEZONE)]. *)
Definition get_unanswered_mentions (c : client) (now : Z)
    (monitored_user_names : list string) (lookback_hours : Z)
  : outcome (list Mention.t) :=
  let monitored_user_gids := foldl (resolve c) [] monitored_user_names in
  match monitored_user_gids with
  | [] => Return []
  | _ =>
      let since := now - lookback_hours * hour in
      let tasks := get_tasks_modified_since c since in
      for_each (check_task c since monitored_user_gids) tasks []
  end.

(** What one work item adds for one monitored identity. *)
Definition unanswered_for (since : Z) (task : Task.t)
    (comments : list Comment.t) (user_gid user_name : string)
  : outcome (list Mention.t) :=
  check_user since task comments [] (user_gid, user_name).

End AsanaClient.

(** The events of the reconciler are the mention dicts of the ledger. *)
#[global] Instance mention_dict : MentionTracker.MentionDict AsanaClient.Mention.t :=
  λ m, KStr (AsanaClient.Mention.mention_story_gid m).

(* ===================================================================== *)
(** * Properties of the ledger                                           *)
(* ===================================================================== *)

Import MentionTracker.

(** The identifiers a later run finds on disk: what
    [load_processed_mentions] returns as ['processed_ids']. *)
Definition persisted_ids (w : world) : gset key :=
  match (load_processed_mentions w).2 with
  | Return d => processed_ids d
  | Raise _ => ∅
  end.

(** The identifiers a ledger file holds for [load_processed_mentions]. *)
Definition ids_of_file (f : file_state) : gset key :=
  match f with
  | NoFile => ∅
  | _ => match load_body f with
         | Return d => processed_ids d
         | Raise _ => ∅
         end
  end.

(** A JSON value that cannot be a member of a [set]. *)
Definition unhashable (j : json) : Prop :=
  match j with
  | JArr _ | JObj _ => True
  | _ => False
  end.

#[global] Instance unhashable_dec j : Decision (unhashable j).
Proof. destruct j; simpl; apply _. Defined.

(** The ledger files [load_processed_mentions] gives up on: the file
    cannot be opened, its text is no JSON, the JSON value is no object, or
    the ['processed_ids'] member of the object is [null], a boolean, a
    number, or a list with a list or an object among its members. *)
Definition rejected (f : file_state) : Prop :=
  match f with
  | NoFile => False
  | Unreadable | Garbage => True
  | Document (JObj kvs) =>
      match dict_get "processed_ids" kvs with
      | Some (JNull | JBool _ | JNum _) => True
      | Some (JArr xs) => Exists unhashable xs
      | _ => False
      end
  | Document _ => True
  end.

#[global] Instance rejected_dec f : Decision (rejected f).
Proof.
  destruct f as [| | |[| | | | |kvs]]; simpl; try apply _.
  destruct (dict_get "processed_ids" kvs) as [[| | | | |]|]; apply _.
Defined.

(** The test [filter_new_mentions] applies to a mention. *)
Definition is_new `{MentionDict M} (ids : gset key) (m : M) : Prop :=
  truthy (mention_story_gid m) = true ∧ mention_story_gid m ∉ ids.

#[global] Instance is_new_dec `{MentionDict M} ids (m : M) : Decision (is_new ids m).
Proof. unfold is_new. apply _. Defined.

(** The operations of the module. *)
Inductive ledger_op (M : Type) : Type :=
| Load
| FilterNew (mentions : list M)
| MarkProcessed (wr : write_outcome) (now : string) (mentions : list M)
| ClearOld (days_to_keep : Z).
Arguments Load {M}.
Arguments FilterNew {M} mentions.
Arguments MarkProcessed {M} wr now mentions.
Arguments ClearOld {M} days_to_keep.

Definition run_op `{MentionDict M} (w : world) (o : ledger_op M) : world :=
  match o with
  | Load => (load_processed_mentions w).1
  | FilterNew ms => (filter_new_mentions ms w).1
  | MarkProcessed wr now ms => (mark_mentions_as_processed wr now ms w).1
  | ClearOld d => clear_old_processed_mentions d w
  end.

(** An operation that is not a write cut short after [open]. *)
Definition uninterrupted {M} (o : ledger_op M) : Prop :=
  match o with
  | MarkProcessed DumpRaises _ _ => False
  | _ => True
  end.

Lemma filter_ext_in {A} (P Q : A → Prop)
    `{∀ a, Decision (P a)} `{∀ a, Decision (Q a)} (l : list A) :
  (∀ a, a ∈ l → P a ↔ Q a) → filter P l = filter Q l.
Proof.
  induction l as [|a l IH]; intros Hpq; [done|].
  rewrite !filter_cons.
  assert (filter P l = filter Q l) as ->
    by (apply IH; intros a' Ha'; apply Hpq; by right).
  destruct (decide (P a)) as [Hp|Hp].
  - rewrite decide_True; [done|]. apply Hpq; [by left|done].
  - rewrite decide_False; [done|]. intros Hq. apply Hp, Hpq; [by left|done].
Qed.


Section LedgerFacts.
Context {M : Type} `{MentionDict M}.

Lemma ensure_data_dir_file w :
  tracker_file (_ensure_data_dir w) = tracker_file w.
Proof. unfold _ensure_data_dir. by destruct (data_dir w). Qed.

Lemma ensure_data_dir_twice w :
  _ensure_data_dir (_ensure_data_dir w) = _ensure_data_dir w.
Proof.
  unfold _ensure_data_dir.
  destruct (data_dir w) eqn:E; simpl; by rewrite ?E.
Qed.

(** [load_processed_mentions] always returns, leaves the file alone and
    yields the identifiers of the file. *)
Lemma load_spec w :
  ∃ d, (load_processed_mentions w).2 = Return d
       ∧ processed_ids d = ids_of_file (tracker_file w)
       ∧ tracker_file (load_processed_mentions w).1 = tracker_file w.
Proof.
  unfold load_processed_mentions.
  pose proof (ensure_data_dir_file w) as Hf.
  destruct (tracker_file (_ensure_data_dir w)) as [| | |j] eqn:E;
    rewrite <- Hf; simpl.
  - eexists; split_and!; done.
  - eexists; split_and!; done.
  - eexists; split_and!; done.
  - unfold ids_of_file.
    destruct (load_body (Document j)) as [d|e]; simpl;
      eexists; split_and!; done.
Qed.

Lemma load_after_ensure w :
  load_processed_mentions (_ensure_data_dir w) = load_processed_mentions w.
Proof. unfold load_processed_mentions. by rewrite ensure_data_dir_twice. Qed.

Lemma persisted_ids_file w : persisted_ids w = ids_of_file (tracker_file w).
Proof.
  unfold persisted_ids. destruct (load_spec w) as (d & -> & Hd & _). done.
Qed.

(** One turn of the loop of [filter_new_mentions]. *)
Lemma filter_step_new ids w acc (m : M) :
  is_new ids m → filter_step ids (w, acc) m = (w, acc ++ [m]).
Proof.
  intros [Ht Hn]. unfold filter_step.
  by rewrite Ht, (bool_decide_eq_false_2 _ Hn).
Qed.

Lemma filter_step_old ids w acc (m : M) :
  ¬ is_new ids m →
  ∃ w', filter_step ids (w, acc) m = (w', acc) ∧ tracker_file w' = tracker_file w.
Proof.
  intros Hn. unfold filter_step.
  destruct (decide (mention_story_gid m ∈ ids)) as [Hin|Hin].
  - rewrite (bool_decide_eq_true_2 _ Hin), andb_false_r. by eexists.
  - rewrite (bool_decide_eq_false_2 _ Hin), andb_true_r.
    destruct (truthy (mention_story_gid m)) eqn:Ht.
    + exfalso. by apply Hn.
    + by eexists.
Qed.

(** The loop of [filter_new_mentions] is a filter; it writes to the log
    only. *)
Lemma filter_loop ids (ms : list M) w acc :
  ∃ w', foldl (filter_step ids) (w, acc) ms = (w', acc ++ filter (is_new ids) ms)
        ∧ tracker_file w' = tracker_file w.
Proof.
  revert w acc. induction ms as [|m ms IH]; intros w acc.
  - exists w. by rewrite app_nil_r.
  - cbn [foldl]. rewrite filter_cons.
    destruct (decide (is_new ids m)) as [Hy|Hn].
    + rewrite (filter_step_new _ _ _ _ Hy).
      destruct (IH w (acc ++ [m])) as (w' & -> & Hw').
      exists w'. by rewrite <- app_assoc.
    + destruct (filter_step_old _ w acc _ Hn) as (w1 & -> & Hw1).
      destruct (IH w1 acc) as (w' & -> & Hw').
      exists w'. split; [done|congruence].
Qed.

Lemma filter_new_mentions_spec (ms : list M) w :
  (filter_new_mentions ms w).2 = Return (filter (is_new (persisted_ids w)) ms)
  ∧ tracker_file (filter_new_mentions ms w).1 = tracker_file w.
Proof.
  unfold filter_new_mentions.
  rewrite persisted_ids_file.
  destruct (load_spec w) as (d & Hd & Hids & Hf).
  destruct (load_processed_mentions w) as [w1 r]. simpl in *. subst r.
  rewrite Hids.
  destruct (filter_loop (ids_of_file (tracker_file w)) ms w1 []) as (w' & -> & Hw').
  simpl.
  split; [done|].
  destruct (bool_decide _); simpl; congruence.
Qed.

Lemma keys_of_jsons_unhashable (xs : list json) :
  Exists unhashable xs → keys_of_jsons xs = Raise TypeError.
Proof.
  induction 1 as [x xs Hx|x xs _ IH]; cbn [keys_of_jsons].
  - by destruct x.
  - rewrite IH. by destruct x.
Qed.

Lemma keys_of_jsons_hashable (xs : list json) :
  ¬ Exists unhashable xs →
  ∃ ks, keys_of_jsons xs = Return ks
        ∧ ∀ k, k ∈ ks ↔ ∃ x, x ∈ xs ∧ key_of_json x = Return k.
Proof.
  induction xs as [|x xs IH]; intros Hx.
  - exists []. split; [done|]. intros k. split; [by inversion 1|].
    intros (x & Hin & _). by inversion Hin.
  - destruct IH as (ks & Hks & Hin).
    { intros Hex. apply Hx. by right. }
    assert (∃ k0, key_of_json x = Return k0) as [k0 Hk0].
    { destruct x; try (by eexists); exfalso; apply Hx; by left. }
    exists (k0 :: ks). cbn [keys_of_jsons]. rewrite Hk0, Hks. split; [done|].
    intros k. rewrite elem_of_cons, Hin. split.
    + intros [->|(x' & Hx' & Hk')].
      * exists x. split; [by left|done].
      * exists x'. split; [by right|done].
    + intros (x' & [->|Hx']%elem_of_cons & Hk').
      * left. congruence.
      * right. by exists x'.
Qed.

(** Reading back what [save_processed_mentions] wrote. *)
Lemma keys_of_jsons_of_keys (ks : list key) :
  keys_of_jsons (json_of_key <$> ks) = Return ks.
Proof.
  induction ks as [|k ks IH]; [done|].
  rewrite fmap_cons. cbn [keys_of_jsons]. rewrite IH. by destruct k.
Qed.

Lemma ids_of_saved_document (s : gset key) now :
  ids_of_file (Document (saved_document s now)) = s.
Proof.
  unfold ids_of_file, load_body, saved_document. simpl.
  rewrite keys_of_jsons_of_keys. simpl.
  apply list_to_set_elements_L.
Qed.

(** The file [save_processed_mentions] leaves behind. *)
Lemma save_spec wr now (ids : gset key) w :
  (save_processed_mentions wr now ids None w).2 = Return ()
  ∧ tracker_file (save_processed_mentions wr now ids None w).1 =
      match wr with
      | WriteOk => Document (saved_document (persisted_ids w ∪ ids) now)
      | OpenRaises => tracker_file w
      | DumpRaises => Garbage
      end.
Proof.
  unfold save_processed_mentions.
  rewrite load_after_ensure, persisted_ids_file.
  destruct (load_spec w) as (d & Hd & Hids & Hf).
  destruct (load_processed_mentions w) as [w1 r]. simpl in *. subst r.
  rewrite Hids. by destruct wr.
Qed.

Lemma mark_spec wr now (ms : list M) w :
  (mark_mentions_as_processed wr now ms w).2 = Return ()
  ∧ tracker_file (mark_mentions_as_processed wr now ms w).1 =
      if decide (mention_ids_of ms = ∅) then tracker_file w
      else match wr with
           | WriteOk =>
               Document (saved_document (persisted_ids w ∪ mention_ids_of ms) now)
           | OpenRaises => tracker_file w
           | DumpRaises => Garbage
           end.
Proof.
  unfold mark_mentions_as_processed.
  destruct (decide (mention_ids_of ms = ∅)); [done|].
  apply save_spec.
Qed.

Lemma elem_of_mention_ids_of (ms : list M) (m : M) :
  m ∈ ms → truthy (mention_story_gid m) = true →
  mention_story_gid m ∈ mention_ids_of ms.
Proof.
  intros Hm Ht. unfold mention_ids_of.
  apply elem_of_list_to_set, list_elem_of_filter. split; [done|].
  by apply list_elem_of_fmap_2.
Qed.

End LedgerFacts.

(** ** Concrete ledgers used below *)

(** A machine on which the data directory exists and no ledger file has
    been written yet. *)
Definition fresh_world : world := World true NoFile [].

(** The mention dict [{'mention_story_gid': gid}]. *)
Definition story (gid : string) : list (string * key) :=
  [("mention_story_gid", KStr gid)].

(** The mention dict [{}]. *)
Definition anonymous : list (string * key) := [].

Section LedgerClaims.
Context {M : Type} `{MentionDict M}.

Lemma filter_none (P : M → Prop) `{∀ m, Decision (P m)} (l : list M) :
  (∀ m, m ∈ l → ¬ P m) → filter P l = [].
Proof.
  induction l as [|m l IH]; intros Hl; [done|].
  rewrite filter_cons_False.
  - apply IH. intros m' Hm'. apply Hl. by right.
  - apply Hl. by left.
Qed.

Lemma save_failure_logged wr now (ids : gset key) w :
  wr ≠ WriteOk →
  last (log (save_processed_mentions wr now ids None w).1) =
    Some (ERROR, "Error saving processed mentions").
Proof.
  intros Hwr. unfold save_processed_mentions.
  destruct (load_spec (_ensure_data_dir w)) as (d & Hd & _ & _).
  destruct (load_processed_mentions (_ensure_data_dir w)) as [w1 r].
  simpl in Hd. subst r.
  destruct wr; [done| |]; simpl; apply last_snoc.
Qed.

Lemma run_op_uninterrupted (o : ledger_op M) w :
  uninterrupted o → persisted_ids w ⊆ persisted_ids (run_op w o).
Proof.
  intros Ho. rewrite !persisted_ids_file.
  destruct o as [|ms|wr now ms|d]; simpl.
  - by destruct (load_spec w) as (_ & _ & _ & ->).
  - by destruct (filter_new_mentions_spec ms w) as [_ ->].
  - destruct (mark_spec wr now ms w) as [_ ->].
    destruct (decide (mention_ids_of ms = ∅)); [done|].
    destruct wr; [|done|done].
    rewrite ids_of_saved_document, persisted_ids_file. set_solver.
  - done.
Qed.

(** C2 (amended). Round trip: for every list of mentions [X], after
    [mark_mentions_as_processed X] whose write completes,
    [filter_new_mentions X] returns the empty list.  When the write fails
    the call returns all the same and records nothing of [X]: if the file
    could not be opened the ledger is as it was, and [filter_new_mentions X]
    returns what it returned before the call; if the write was cut short
    after the file was opened the ledger is lost, and
    [filter_new_mentions X] returns every mention of [X] that carries an
    identifier. *)
Theorem marked_mentions_are_not_new now (X : list M) w :
  (filter_new_mentions X (mark_mentions_as_processed WriteOk now X w).1).2
  = Return []
  ∧ (∀ wr, (mark_mentions_as_processed wr now X w).2 = Return ())
  ∧ (filter_new_mentions X (mark_mentions_as_processed OpenRaises now X w).1).2
    = (filter_new_mentions X w).2
  ∧ (filter_new_mentions X (mark_mentions_as_processed DumpRaises now X w).1).2
    = Return (filter (λ m, truthy (mention_story_gid m) = true) X).
Proof.
  split_and!.
  - destruct (filter_new_mentions_spec X
                (mark_mentions_as_processed WriteOk now X w).1) as [-> _].
    f_equal. apply filter_none. intros m Hm [Ht Hn]. apply Hn.
    pose proof (elem_of_mention_ids_of X m Hm Ht) as Hin.
    rewrite persisted_ids_file.
    destruct (mark_spec WriteOk now X w) as [_ ->].
    destruct (decide (mention_ids_of X = ∅)) as [E|_].
    + rewrite E in Hin. set_solver.
    + rewrite ids_of_saved_document. set_solver.
  - intros wr. apply mark_spec.
  - destruct (filter_new_mentions_spec X
                (mark_mentions_as_processed OpenRaises now X w).1) as [-> _].
    destruct (filter_new_mentions_spec X w) as [-> _].
    rewrite !persisted_ids_file.
    destruct (mark_spec OpenRaises now X w) as [_ ->].
    by destruct (decide (mention_ids_of X = ∅)).
  - destruct (filter_new_mentions_spec X
                (mark_mentions_as_processed DumpRaises now X w).1) as [-> _].
    f_equal. rewrite persisted_ids_file.
    destruct (mark_spec DumpRaises now X w) as [_ ->].
    destruct (decide (mention_ids_of X = ∅)) as [E|_].
    + apply filter_ext_in. intros m Hm. split; [by intros [? _]|].
      intros Ht. pose proof (elem_of_mention_ids_of X m Hm Ht) as Hin.
      rewrite E in Hin. set_solver.
    + apply filter_ext_in. intros m Hm. unfold is_new. simpl.
      split; [by intros [? _]|]. intros Ht. split; [done|].
      apply not_elem_of_empty.
Qed.

(** C3 (amended). A failed write of the ledger file is caught inside
    [save_processed_mentions] and logged as an error;
    [mark_mentions_as_processed] returns normally, the caller is not
    told. *)
Theorem failed_write_is_logged_not_raised wr now (X : list M) w :
  wr ≠ WriteOk → mention_ids_of X ≠ ∅ →
  (mark_mentions_as_processed wr now X w).2 = Return ()
  ∧ last (log (mark_mentions_as_processed wr now X w).1) =
      Some (ERROR, "Error saving processed mentions").
Proof.
  intros Hwr HX. split; [apply mark_spec|].
  unfold mark_mentions_as_processed.
  destruct (decide (mention_ids_of X = ∅)); [done|].
  by apply save_failure_logged.
Qed.

(** C5 (amended). Append-only growth: along every sequence of ledger
    operations ([load], [filter_new], [mark_processed], [clear_old]) in
    which no write is cut short after the file was opened, the persisted
    set of identifiers after the sequence contains the set before it, so
    its size never decreases. *)
Theorem persisted_ids_only_grow (before after : list (ledger_op M)) w :
  Forall uninterrupted after →
  persisted_ids (foldl run_op w before)
    ⊆ persisted_ids (foldl run_op w (before ++ after))
  ∧ (size (persisted_ids (foldl run_op w before))
     ≤ size (persisted_ids (foldl run_op w (before ++ after))))%nat.
Proof.
  intros Hafter. rewrite foldl_app.
  generalize (foldl run_op w before). clear w before. intros w.
  assert (persisted_ids w ⊆ persisted_ids (foldl run_op w after)) as Hsub.
  { revert w. induction Hafter as [|o ops Ho _ IH]; intros w; [done|].
    cbn [foldl]. etrans; [by apply run_op_uninterrupted|]. apply IH. }
  split; [done|]. by apply subseteq_size.
Qed.

(** C8. Filtering twice with no [mark_mentions_as_processed] in between
    gives the result of filtering once. *)
Theorem filter_new_mentions_idempotent (X : list M) w :
  ∃ X1, (filter_new_mentions X w).2 = Return X1
        ∧ (filter_new_mentions X1 (filter_new_mentions X w).1).2 = Return X1.
Proof.
  destruct (filter_new_mentions_spec X w) as [E1 Ef].
  eexists. split; [exact E1|].
  destruct (filter_new_mentions_spec (filter (is_new (persisted_ids w)) X)
              (filter_new_mentions X w).1) as [-> _].
  f_equal. rewrite !persisted_ids_file, Ef.
  rewrite list_filter_filter. apply list_filter_iff. tauto.
Qed.

(** C9. On a list of mention events, each of which carries its
    identifier, [filter_new_mentions] returns exactly the events whose
    identifier is absent from the loaded ledger record, in input order, and
    it leaves the ledger file as it was. *)
Theorem filter_new_mentions_keeps_new (X : list M) w :
  (∀ m, m ∈ X → truthy (mention_story_gid m) = true) →
  (filter_new_mentions X w).2
    = Return (filter (λ m, mention_story_gid m ∉ persisted_ids w) X)
  ∧ tracker_file (filter_new_mentions X w).1 = tracker_file w.
Proof.
  intros Hid. destruct (filter_new_mentions_spec X w) as [-> Hf].
  split; [|done]. f_equal. apply filter_ext_in. intros m Hm.
  unfold is_new. specialize (Hid m Hm). tauto.
Qed.

End LedgerClaims.

(** C4 (amended). With the data directory in place,
    [load_processed_mentions] never raises.  It returns the empty record
    (no identifiers, no time stamp, a total of zero) when the ledger file
    is missing and, after logging an error, when the file cannot be
    opened, holds no JSON, holds a JSON value that is no object, or holds
    an object whose ['processed_ids'] is [null], a boolean, a number or a
    list with a list or an object among its members.  Every other JSON
    object is accepted unchecked and nothing is logged: ['processed_ids']
    becomes the set of its members (none when the member is missing, the
    characters of a string, the member names of an object), and
    ['last_updated'] and ['total_processed'] are returned as the file has
    them, or not at all. *)
Theorem load_missing_or_corrupt_is_empty w :
  data_dir w = true →
  (tracker_file w = NoFile ∨ rejected (tracker_file w)
   ∨ ∃ kvs, tracker_file w = Document (JObj kvs) ∧ ¬ rejected (tracker_file w))
  ∧ (tracker_file w = NoFile →
       load_processed_mentions w
       = (w, Return (TrackerData ∅ (Some JNull) (Some (JNum 0)))))
  ∧ (rejected (tracker_file w) →
       load_processed_mentions w
       = (logger ERROR "Error loading processed mentions" w,
          Return (TrackerData ∅ (Some JNull) (Some (JNum 0)))))
  ∧ (∀ kvs, tracker_file w = Document (JObj kvs) →
       ¬ rejected (tracker_file w) →
       ∃ ids,
         load_processed_mentions w
         = (w, Return (TrackerData ids (dict_get "last_updated" kvs)
                                   (dict_get "total_processed" kvs)))
         ∧ match dict_get "processed_ids" kvs with
           | None => ids = ∅
           | Some (JStr s) => ids = list_to_set (chars s)
           | Some (JObj members) => ids = list_to_set (KStr <$> members.*1)
           | Some (JArr xs) =>
               ∀ k, k ∈ ids ↔ ∃ x, x ∈ xs ∧ key_of_json x = Return k
           | Some _ => False
           end).
Proof.
  intros Hdir.
  assert (_ensure_data_dir w = w) as Hw
    by (unfold _ensure_data_dir; by rewrite Hdir).
  unfold load_processed_mentions. rewrite Hw.
  split_and!.
  - destruct (tracker_file w) as [| | |j] eqn:E; [by left|right; by left..|].
    destruct (decide (rejected (Document j))) as [Hr|Hr]; [right; by left|].
    right; right. destruct j as [| | | | |kvs]; [by destruct Hr..|].
    by exists kvs.
  - by intros ->.
  - intros Hr.
    destruct (tracker_file w) as [| | |j]; [done..|].
    destruct j as [| | | | |kvs]; [done..|].
    unfold load_body. simpl in *.
    destruct (dict_get "processed_ids" kvs) as [[| | | |xs|]|]; try done.
    simpl. by rewrite (keys_of_jsons_unhashable xs Hr).
  - intros kvs -> Hr. unfold load_body. simpl in *.
    destruct (dict_get "processed_ids" kvs) as [[| | |s|xs|members]|];
      try (by destruct Hr); try (by eexists).
    destruct (keys_of_jsons_hashable xs Hr) as (ks & Hret & Hks).
    exists (list_to_set ks). split.
    + simpl. unfold mbind, outcome_bind. by rewrite Hret.
    + intros k. by rewrite elem_of_list_to_set.
Qed.

(** ** The ledger at concrete inputs *)

(** C2, as stated, fails when the write does not go through: the call
    returns normally, yet the mention is reported as new again. *)
Lemma unwritten_mark_reappears :
  [story "s1"] ≠ []
  ∧ (mark_mentions_as_processed OpenRaises "2025-01-06T09:00:00" [story "s1"]
       fresh_world).2 = Return ()
  ∧ (filter_new_mentions [story "s1"]
       (mark_mentions_as_processed OpenRaises "2025-01-06T09:00:00" [story "s1"]
          fresh_world).1).2 ≠ Return [].
Proof. split_and!; [done|by vm_compute|by vm_compute]. Qed.

(** C3, as stated, fails: with a write that raises,
    [mark_mentions_as_processed] returns [None] like a successful call; all
    that is left of the failure is a line in the log. *)
Lemma failed_write_is_swallowed :
  mark_mentions_as_processed OpenRaises "2025-01-06T09:00:00" [story "s1"]
    fresh_world
  = (World true NoFile [(ERROR, "Error saving processed mentions")], Return ()).
Proof. by vm_compute. Qed.

Lemma failed_write_is_logged_not_raised_witness :
  (mark_mentions_as_processed DumpRaises "2025-01-06T09:00:00" [story "s1"]
     fresh_world).2 = Return ()
  ∧ last (log (mark_mentions_as_processed DumpRaises "2025-01-06T09:00:00"
                 [story "s1"] fresh_world).1)
    = Some (ERROR, "Error saving processed mentions").
Proof.
  apply (failed_write_is_logged_not_raised DumpRaises "2025-01-06T09:00:00"
           [story "s1"] fresh_world).
  - discriminate.
  - apply (bool_decide_unpack _). vm_compute. exact I.
Defined.

(** C4, as stated, fails on a ledger file that is damaged and still read:
    the file holds [{"processed_ids": "s1"}], a string where the list of
    identifiers should be.  [set("s1")] is the set of its characters, so
    the record returned has two identifiers and no total at all, and
    nothing is logged. *)
Lemma damaged_ledger_is_accepted :
  load_processed_mentions
    (World true (Document (JObj [("processed_ids", JStr "s1")])) [])
  = (World true (Document (JObj [("processed_ids", JStr "s1")])) [],
     Return (TrackerData {[KStr "s"; KStr "1"]} None None))
  ∧ ({[KStr "s"; KStr "1"]} : gset key) ≠ ∅
  ∧ (None : option json) ≠ Some (JNum 0).
Proof.
  split_and!; [| |done].
  - unfold load_processed_mentions, load_body, _ensure_data_dir. simpl.
    by rewrite (right_id_L ∅ (∪)).
  - apply (non_empty_inhabited_L (KStr "s")).
    apply elem_of_union_l. by apply elem_of_singleton.
Qed.

Lemma load_missing_or_corrupt_is_empty_witness :
  rejected (Document (JObj [("processed_ids", JNum 7)]))
  ∧ load_processed_mentions
      (World true (Document (JObj [("processed_ids", JNum 7)])) [])
    = (World true (Document (JObj [("processed_ids", JNum 7)]))
         [(ERROR, "Error loading processed mentions")],
       Return (TrackerData ∅ (Some JNull) (Some (JNum 0)))).
Proof.
  split; [exact I|].
  apply (load_missing_or_corrupt_is_empty
           (World true (Document (JObj [("processed_ids", JNum 7)])) []));
    [reflexivity|exact I].
Defined.

(** C5, as stated, fails when a write is cut short: [open(..., 'w')] has
    emptied the file, the next load finds no JSON in it, and an identifier
    recorded before is gone. *)
Lemma interrupted_write_forgets_ids :
  KStr "s1" ∈ persisted_ids
    (mark_mentions_as_processed WriteOk "2025-01-06T09:00:00" [story "s1"]
       fresh_world).1
  ∧ ¬ (persisted_ids
         (mark_mentions_as_processed WriteOk "2025-01-06T09:00:00" [story "s1"]
            fresh_world).1
       ⊆ persisted_ids
           (mark_mentions_as_processed DumpRaises "2025-01-07T09:00:00"
              [story "s2"]
              (mark_mentions_as_processed WriteOk "2025-01-06T09:00:00"
                 [story "s1"] fresh_world).1).1).
Proof.
  assert (KStr "s1" ∈ persisted_ids
            (mark_mentions_as_processed WriteOk "2025-01-06T09:00:00"
               [story "s1"] fresh_world).1) as Hin.
  { apply (bool_decide_unpack _). vm_compute. exact I. }
  split; [exact Hin|].
  intros Hsub. apply Hsub in Hin. revert Hin.
  apply (bool_decide_unpack _). vm_compute. exact I.
Qed.

Lemma persisted_ids_only_grow_witness :
  persisted_ids
    (foldl run_op fresh_world
       [MarkProcessed WriteOk "2025-01-06T09:00:00" [story "s1"]])
  ⊆ persisted_ids
      (foldl run_op fresh_world
         ([MarkProcessed WriteOk "2025-01-06T09:00:00" [story "s1"]] ++
          [FilterNew [story "s1"; story "s2"];
           MarkProcessed OpenRaises "2025-01-07T09:00:00" [story "s2"];
           ClearOld 30;
           MarkProcessed WriteOk "2025-01-08T09:00:00" [story "s3"]])).
Proof.
  apply (persisted_ids_only_grow
           [MarkProcessed WriteOk "2025-01-06T09:00:00" [story "s1"]]
           [FilterNew [story "s1"; story "s2"];
            MarkProcessed OpenRaises "2025-01-07T09:00:00" [story "s2"];
            ClearOld 30;
            MarkProcessed WriteOk "2025-01-08T09:00:00" [story "s3"]]
           fresh_world).
  repeat constructor.
Defined.

Lemma filter_new_mentions_keeps_new_witness :
  (filter_new_mentions [story "s1"; story "s2"; story "s3"]
     (World true
        (Document (saved_document {[KStr "s2"]} "2025-01-06T09:00:00")) [])).2
  = Return
      (filter
         (λ m, mention_story_gid m
               ∉ persisted_ids
                   (World true
                      (Document
                         (saved_document {[KStr "s2"]} "2025-01-06T09:00:00"))
                      []))
         [story "s1"; story "s2"; story "s3"])
  ∧ tracker_file
      (filter_new_mentions [story "s1"; story "s2"; story "s3"]
         (World true
            (Document (saved_document {[KStr "s2"]} "2025-01-06T09:00:00"))
            [])).1
    = Document (saved_document {[KStr "s2"]} "2025-01-06T09:00:00").
Proof.
  apply (filter_new_mentions_keeps_new [story "s1"; story "s2"; story "s3"]
           (World true
              (Document (saved_document {[KStr "s2"]} "2025-01-06T09:00:00"))
              [])).
  intros m Hm.
  repeat (apply elem_of_cons in Hm as [->|Hm]; [reflexivity|]).
  by inversion Hm.
Defined.

(* ===================================================================== *)
(** * Properties of the reconciler                                       *)
(* ===================================================================== *)

Import AsanaClient.

(** The instants at which [user_gid] posted in a timeline: its comments
    whose ['created_at'] can be read. *)
Definition replies (user_gid : string) (comments : list Comment.t) : list Z :=
  comments ≫= λ c,
    match Comment.created_at c with
    | Some (IsoTime t) =>
        if decide (Comment.author_gid c = Some user_gid) then [t] else []
    | _ => []
    end.

(** The references to [user_gid] in the decorated form of a comment. *)
Definition references (user_gid : string) (c : Comment.t) : list user_ref :=
  filter (λ m, AsanaClient.user_gid m = user_gid)
         (extract_mentions_from_html (Comment.html_text c)).

(** The candidates of a timeline: one per reference to [user_gid] in a
    comment of somebody else whose ['created_at'] can be read. *)
Definition candidates (user_gid : string) (comments : list Comment.t)
  : list mention_data :=
  comments ≫= λ c,
    match Comment.created_at c with
    | Some (IsoTime t) =>
        if decide (Comment.author_gid c = Some user_gid) then []
        else (λ _, MentionData c t) <$> references user_gid c
    | _ => []
    end.

(** The running maximum kept in [user_last_reply_at]. *)
Definition later (last : option Z) (t : Z) : option Z :=
  match last with
  | None => Some t
  | Some l => if l <? t then Some t else Some l
  end.

(** The test of the second loop of [get_unanswered_mentions]. *)
Definition unanswered (since : Z) (last : option Z) (m : mention_data) : Prop :=
  since ≤ mentioned_at m ∧ has_replied last (mentioned_at m) = false.

#[global] Instance unanswered_dec since last m : Decision (unanswered since last m).
Proof. unfold unanswered. apply _. Defined.

Section ReconcilerFacts.
Variables (since : Z) (task : Task.t) (user_gid user_name : string).

Lemma has_replied_false last t :
  has_replied last t = false ↔ ∀ l, last = Some l → l ≤ t.
Proof.
  destruct last as [l|]; simpl.
  - rewrite Z.ltb_ge. split; [by intros ? ? [= <-]|eauto].
  - split; [by intros|done].
Qed.

(** The first loop: what one comment does to the state. *)
Lemma walk_step_spec cands last (c : Comment.t) :
  walk_step user_gid (cands, last) c =
    match Comment.created_at c with
    | None => Raise AttributeError
    | Some _ =>
        Return (cands ++ candidates user_gid [c],
                foldl later last (replies user_gid [c]))
    end.
Proof.
  unfold walk_step, parse_created_at, candidates, replies, references.
  simpl. destruct (Comment.created_at c) as [[|t]|]; [|  |done].
  - simpl. by rewrite app_nil_r.
  - destruct (decide (Comment.author_gid c = Some user_gid)); simpl.
    + rewrite app_nil_r. destruct last as [l|]; [|done].
      unfold later. by destruct (l <? t).
    + by rewrite app_nil_r.
Qed.

Lemma candidates_cons c comments :
  candidates user_gid (c :: comments)
  = candidates user_gid [c] ++ candidates user_gid comments.
Proof. unfold candidates. simpl. by rewrite app_nil_r. Qed.

Lemma replies_cons c comments :
  replies user_gid (c :: comments)
  = replies user_gid [c] ++ replies user_gid comments.
Proof. unfold replies. simpl. by rewrite app_nil_r. Qed.

(** The first loop, when it comes to its end. *)
Lemma walk_loop_returned comments cands last cands' last' :
  for_each (walk_step user_gid) comments (cands, last) = Return (cands', last') →
  cands' = cands ++ candidates user_gid comments
  ∧ last' = foldl later last (replies user_gid comments).
Proof.
  revert cands last.
  induction comments as [|c comments IH]; intros cands last Hw.
  - injection Hw as <- <-. by rewrite app_nil_r.
  - cbn [for_each] in Hw. rewrite walk_step_spec in Hw.
    rewrite (candidates_cons c comments), (replies_cons c comments).
    rewrite foldl_app, app_assoc.
    destruct (Comment.created_at c); [|done].
    by apply IH in Hw.
Qed.

(** It comes to its end when every comment has a ['created_at']. *)
Lemma walk_loop_returns comments cands last :
  (∀ c, c ∈ comments → Comment.created_at c ≠ None) →
  for_each (walk_step user_gid) comments (cands, last)
  = Return (cands ++ candidates user_gid comments,
            foldl later last (replies user_gid comments)).
Proof.
  revert cands last.
  induction comments as [|c comments IH]; intros cands last Hc.
  - simpl. by rewrite app_nil_r.
  - cbn [for_each]. rewrite walk_step_spec.
    rewrite (candidates_cons c comments), (replies_cons c comments).
    rewrite foldl_app, app_assoc.
    assert (Comment.created_at c ≠ None) as Hnone by (apply Hc; by left).
    destruct (Comment.created_at c); [|done].
    cbn [Py.bind]. apply IH. intros c' Hc'. apply Hc. by right.
Qed.

(** It raises as soon as a comment has none. *)
Lemma walk_loop_raises comments cands last :
  (∃ c, c ∈ comments ∧ Comment.created_at c = None) →
  for_each (walk_step user_gid) comments (cands, last) = Raise AttributeError.
Proof.
  revert cands last.
  induction comments as [|c comments IH]; intros cands last (c0 & Hin & Hc0).
  - by inversion Hin.
  - cbn [for_each]. rewrite walk_step_spec.
    destruct (Comment.created_at c) eqn:E; [|done].
    cbn [Py.bind]. apply IH. exists c0. split; [|done].
    apply elem_of_cons in Hin as [->|Hin]; [congruence|done].
Qed.

(** The running maximum is the latest of the instants seen. *)
Lemma later_spec ts last l :
  foldl later last ts = Some l →
  (l ∈ ts ∨ last = Some l)
  ∧ (∀ t, t ∈ ts → t ≤ l)
  ∧ (∀ l0, last = Some l0 → l0 ≤ l).
Proof.
  revert last. induction ts as [|t ts IH]; intros last Hl.
  - simpl in Hl. subst last. split_and!; [by right|by inversion 1|].
    by intros ? [= <-].
  - cbn [foldl] in Hl. apply IH in Hl as (Hin & Hmax & Hinit).
    assert (t ≤ l ∧ ∀ l0, last = Some l0 → l0 ≤ l) as [Ht Hlast].
    { destruct last as [l0|]; simpl in Hinit.
      - destruct (l0 <? t) eqn:Hlt.
        + apply Z.ltb_lt in Hlt. specialize (Hinit _ eq_refl).
          split; [done|]. intros ? [= <-]. lia.
        + apply Z.ltb_ge in Hlt. specialize (Hinit _ eq_refl).
          split; [lia|]. by intros ? [= <-].
      - split; [by apply Hinit|done]. }
    split_and!; [|by intros t' [->|?]%elem_of_cons; auto|done].
    destruct Hin as [Hin|Hin]; [left; by right|].
    destruct last as [l0|]; simpl in Hin.
    + destruct (l0 <? t); injection Hin as <-; [left; by left|by right].
    + injection Hin as <-. left; by left.
Qed.

Lemma later_none ts : foldl later None ts = None → ts = [].
Proof.
  destruct ts as [|t ts]; [done|]. cbn [foldl later]. intros Hl.
  assert (∀ ts l, foldl later (Some l) ts ≠ None) as Hsome.
  { clear. induction ts as [|t ts IH]; intros l; [done|].
    cbn [foldl later]. destruct (l <? t); apply IH. }
  by apply Hsome in Hl.
Qed.

Lemma elem_of_replies comments c t :
  c ∈ comments → Comment.author_gid c = Some user_gid →
  Comment.created_at c = Some (IsoTime t) → t ∈ replies user_gid comments.
Proof.
  intros Hc Ha Ht. unfold replies. apply list_elem_of_bind.
  exists c. split; [|done]. rewrite Ht, decide_True by done. by left.
Qed.

Lemma elem_of_replies_inv comments t :
  t ∈ replies user_gid comments →
  ∃ c, c ∈ comments ∧ Comment.author_gid c = Some user_gid
       ∧ Comment.created_at c = Some (IsoTime t).
Proof.
  unfold replies. intros (c & Hin & Hc)%list_elem_of_bind.
  exists c. split; [done|].
  destruct (Comment.created_at c) as [[|t']|]; [by inversion Hin| |by inversion Hin].
  destruct (decide _) as [Ha|]; [|by inversion Hin].
  apply list_elem_of_singleton in Hin as ->. done.
Qed.

(** The second loop is a filter. *)
Lemma select_loop comments last cands acc :
  foldl (select_step since task comments user_gid user_name last) acc cands
  = acc ++ (report task comments user_gid user_name
              <$> filter (unanswered since last) cands).
Proof.
  revert acc. induction cands as [|m cands IH]; intros acc.
  - simpl. by rewrite app_nil_r.
  - cbn [foldl]. rewrite IH, filter_cons. unfold select_step.
    destruct (decide (unanswered since last m)) as [[Hs Hr]|Hn].
    + rewrite (proj2 (Z.ltb_ge _ _) Hs), Hr.
      by rewrite fmap_cons, <- app_assoc.
    + destruct (mentioned_at m <? since) eqn:Hlt; [done|].
      destruct (has_replied last (mentioned_at m)) eqn:Hr; [done|].
      exfalso. apply Hn. split; [by apply Z.ltb_ge|done].
Qed.

(** [check_user] appends what [unanswered_for] computes. *)
Lemma check_user_appends comments acc :
  check_user since task comments acc (user_gid, user_name)
  = out ← unanswered_for since task comments user_gid user_name;
    Return (acc ++ out).
Proof.
  unfold unanswered_for, check_user.
  destruct (walk user_gid comments) as [[cands last]|e]; [|done].
  simpl. by rewrite !select_loop.
Qed.

Lemma unanswered_for_returned comments cands last :
  walk user_gid comments = Return (cands, last) →
  unanswered_for since task comments user_gid user_name
  = Return (report task comments user_gid user_name
              <$> filter (unanswered since last) cands).
Proof.
  intros Hw. unfold unanswered_for, check_user. rewrite Hw. simpl.
  by rewrite select_loop.
Qed.

End ReconcilerFacts.

(** ** The whole pass *)

(** What one work item adds for one monitored identity when its walk comes
    to its end. *)
Definition events_for (since : Z) (task : Task.t) (comments : list Comment.t)
    (user : string * string) : list Mention.t :=
  report task comments user.1 user.2
    <$> filter (unanswered since (foldl later None (replies user.1 comments)))
               (candidates user.1 comments).

Definition dated (comments : list Comment.t) : Prop :=
  ∀ c, c ∈ comments → Comment.created_at c ≠ None.

Section WholePass.
Variables (c : client) (since : Z).

Lemma check_user_dated task comments acc user :
  dated comments →
  check_user since task comments acc user
  = Return (acc ++ events_for since task comments user).
Proof.
  intros Hd. destruct user as [user_gid user_name].
  rewrite check_user_appends.
  pose proof (walk_loop_returns user_gid comments [] None Hd) as Hw.
  by rewrite (unanswered_for_returned _ _ _ _ _ _ _ Hw).
Qed.

Lemma users_loop_dated task comments users acc :
  dated comments →
  for_each (check_user since task comments) users acc
  = Return (acc ++ (users ≫= events_for since task comments)).
Proof.
  intros Hd. revert acc.
  induction users as [|u users IH]; intros acc.
  - simpl. by rewrite app_nil_r.
  - cbn [for_each]. rewrite check_user_dated by done. cbn [Py.bind].
    by rewrite IH, bind_cons, app_assoc.
Qed.

Lemma events_for_no_comments task users :
  users ≫= events_for since task [] = [].
Proof. induction users as [|u users IH]; [done|]. by rewrite bind_cons, IH. Qed.

Lemma check_task_dated monitored acc task :
  dated (get_stories_for_task c (Task.gid task)) →
  check_task c since monitored acc task
  = Return (acc ++ (monitored ≫=
                      events_for since task (get_stories_for_task c (Task.gid task)))).
Proof.
  intros Hd. unfold check_task.
  destruct (get_stories_for_task c (Task.gid task)) as [|c0 comments] eqn:E.
  - by rewrite events_for_no_comments, app_nil_r.
  - by apply users_loop_dated.
Qed.

Lemma tasks_loop_dated monitored tasks acc :
  (∀ task, task ∈ tasks → dated (get_stories_for_task c (Task.gid task))) →
  for_each (check_task c since monitored) tasks acc
  = Return (acc ++ (tasks ≫= λ task,
              monitored ≫=
                events_for since task (get_stories_for_task c (Task.gid task)))).
Proof.
  revert acc. induction tasks as [|task tasks IH]; intros acc Hd.
  - simpl. by rewrite app_nil_r.
  - cbn [for_each]. rewrite check_task_dated by (apply Hd; by left).
    cbn [Py.bind]. rewrite IH by (intros t Ht; apply Hd; by right).
    by rewrite bind_cons, app_assoc.
Qed.

End WholePass.

(** When every comment the pass meets carries a ['created_at'],
    [get_unanswered_mentions] returns, work item by work item and identity
    by identity, the events of each timeline. *)
Lemma get_unanswered_mentions_dated (c : client) (now : Z)
    (names : list string) (lookback_hours : Z) :
  let since := now - lookback_hours * hour in
  let monitored := foldl (resolve c) [] names in
  let tasks := get_tasks_modified_since c since in
  (∀ task, task ∈ tasks → dated (get_stories_for_task c (Task.gid task))) →
  get_unanswered_mentions c now names lookback_hours
  = Return (tasks ≫= λ task,
      monitored ≫= events_for since task (get_stories_for_task c (Task.gid task))).
Proof.
  intros since monitored tasks Hd. unfold get_unanswered_mentions.
  fold since monitored tasks.
  destruct monitored as [|u monitored'] eqn:E.
  - f_equal. clear. induction tasks as [|t ts IH]; [done|].
    by rewrite bind_cons, <- IH.
  - by rewrite (tasks_loop_dated c since _ tasks [] Hd).
Qed.

(** ** The scenario of the specification *)

Module Scenario.

Definition bob : string := "1200000000000001".
Definition alice : string := "1200000000000002".

(** [<a data-asana-type="user" data-asana-gid="...">@Bob</a>] *)
Definition at_bob : anchor := Anchor (Some "user") (Some bob) "@Bob".

Definition c1 : Comment.t :=
  Comment.Make "C1" (Some (IsoTime 0)) "Alice" (Some alice)
    "@Bob can you review this?" (Markup [at_bob]).

Definition c2 : Comment.t :=
  Comment.Make "C2" (Some (IsoTime (5 * hour))) "Bob" (Some bob)
    "Looks fine." (Markup []).

Definition c3 : Comment.t :=
  Comment.Make "C3" (Some (IsoTime (10 * hour))) "Alice" (Some alice)
    "@Bob one more question" (Markup [at_bob]).

(** Bob's reply as a story that came without ['created_at']. *)
Definition c2_undated : Comment.t :=
  Comment.Make "C2" None "Bob" (Some bob) "Looks fine." (Markup []).

(** A comment that names Bob twice. *)
Definition c_twice : Comment.t :=
  Comment.Make "C4" (Some (IsoTime (11 * hour))) "Alice" (Some alice)
    "@Bob ping @Bob" (Markup [at_bob; at_bob]).

Definition W : Task.t :=
  Task.Make "W" (Some "Quarterly report") None (Some "Reporting") (Some "").

(** A workspace with the one member Bob and the one work item [W]. *)
Definition workspace (comments : list Comment.t) : client :=
  Client (λ name, if String.eqb name "Bob" then Some bob else None)
         (λ since, [W])
         (λ task_gid, if String.eqb task_gid "W" then comments else []).

Definition now : Z := 12 * hour.

End Scenario.





(** A ['created_at'] that [fromisoformat] rejects leaves the state of the
    walk as it was: the comment neither counts as a reply nor as a
    mention. *)
Lemma malformed_created_at_is_skipped user_gid st (c : Comment.t) :
  Comment.created_at c = Some Malformed →
  walk_step user_gid st c = Return st.
Proof.
  intros Hc. destruct st as [cands last].
  unfold walk_step, parse_created_at. by rewrite Hc.
Qed.

(** ** The reconciler at concrete inputs *)

(** C7. The scenario of the specification: Alice mentions Bob at 0h, Bob
    replies at 5h, Alice mentions Bob again at 10h; at 12h, looking back
    24 hours, [get_unanswered_mentions] returns one event, the one for the
    comment [C3] of 10h.  Without Bob's reply it returns two events, for
    [C1] of 0h and for [C3] of 10h, in this order. *)
Theorem scenario_reply_between_mentions :
  get_unanswered_mentions
    (Scenario.workspace [Scenario.c1; Scenario.c2; Scenario.c3])
    Scenario.now ["Bob"] 24
  = Return
      [ {| Mention.task_gid := "W";
           Mention.task_name := "Quarterly report";
           Mention.task_url := "https://app.asana.com/0/0/W";
           Mention.project_name := "Reporting";
           Mention.task_description := "";
           Mention.mention_story_gid := "C3";
           Mention.mentioned_user_name := "Bob";
           Mention.mentioned_user_gid := Scenario.bob;
           Mention.author_name := "Alice";
           Mention.author_gid := Some Scenario.alice;
           Mention.comment_text := "@Bob one more question";
           Mention.comment_created_at := 10 * hour;
           Mention.recent_comments := [Scenario.c1; Scenario.c2; Scenario.c3] |} ]
  ∧ get_unanswered_mentions
      (Scenario.workspace [Scenario.c1; Scenario.c3])
      Scenario.now ["Bob"] 24
    = Return
        [ {| Mention.task_gid := "W";
             Mention.task_name := "Quarterly report";
             Mention.task_url := "https://app.asana.com/0/0/W";
             Mention.project_name := "Reporting";
             Mention.task_description := "";
             Mention.mention_story_gid := "C1";
             Mention.mentioned_user_name := "Bob";
             Mention.mentioned_user_gid := Scenario.bob;
             Mention.author_name := "Alice";
             Mention.author_gid := Some Scenario.alice;
             Mention.comment_text := "@Bob can you review this?";
             Mention.comment_created_at := 0;
             Mention.recent_comments := [Scenario.c1; Scenario.c3] |};
          {| Mention.task_gid := "W";
             Mention.task_name := "Quarterly report";
             Mention.task_url := "https://app.asana.com/0/0/W";
             Mention.project_name := "Reporting";
             Mention.task_description := "";
             Mention.mention_story_gid := "C3";
             Mention.mentioned_user_name := "Bob";
             Mention.mentioned_user_gid := Scenario.bob;
             Mention.author_name := "Alice";
             Mention.author_gid := Some Scenario.alice;
             Mention.comment_text := "@Bob one more question";
             Mention.comment_created_at := 10 * hour;
             Mention.recent_comments := [Scenario.c1; Scenario.c3] |} ].
Proof. split; by vm_compute. Qed.

(** The pass and the ledger together: the ledger already holds the
    identifier of [C3]; of the two events of the pass without Bob's reply
    only the one for [C1] is new. *)
Example rerun_reports_only_c1 :
  (filter_new_mentions
     [report Scenario.W [Scenario.c1; Scenario.c3] Scenario.bob "Bob"
        (MentionData Scenario.c1 0);
      report Scenario.W [Scenario.c1; Scenario.c3] Scenario.bob "Bob"
        (MentionData Scenario.c3 (10 * hour))]
     (World true
        (Document (saved_document {[KStr "C3"]} "2025-01-06T09:00:00")) [])).2
  = Return
      [report Scenario.W [Scenario.c1; Scenario.c3] Scenario.bob "Bob"
         (MentionData Scenario.c1 0)].
Proof. by vm_compute. Qed.

(** C10 at a failing input.  Bob's reply arrives without ['created_at']:
    [None.replace] raises [AttributeError], which the handler for
    [(ValueError, TypeError)] lets through, and the whole call raises
    instead of skipping the comment and reporting [C1] and [C3]. *)
Theorem undated_comment_aborts_the_pass :
  get_unanswered_mentions
    (Scenario.workspace [Scenario.c1; Scenario.c2_undated; Scenario.c3])
    Scenario.now ["Bob"] 24
  = Raise AttributeError.
Proof. by vm_compute. Qed.

(* ===================================================================== *)
(** * Further properties of the ledger                                   *)
(* ===================================================================== *)

Section LedgerMore.
Context {M : Type} `{MentionDict M}.

Lemma load_body_saved_document (s : gset key) now :
  load_body (Document (saved_document s now))
  = Return (TrackerData s (Some (JStr now)) (Some (JNum (Z.of_nat (size s))))).
Proof.
  unfold load_body, saved_document. simpl.
  rewrite keys_of_jsons_of_keys. simpl.
  by rewrite list_to_set_elements_L.
Qed.

Lemma load_document w j :
  tracker_file w = Document j →
  (load_processed_mentions w).2
  = match load_body (Document j) with
    | Return d => Return d
    | Raise _ => Return empty_record
    end.
Proof.
  intros Hf. unfold load_processed_mentions.
  rewrite ensure_data_dir_file, Hf.
  by destruct (load_body (Document j)).
Qed.

Lemma mention_ids_of_empty (X : list M) :
  mention_ids_of X = ∅ ↔ ∀ m, m ∈ X → truthy (mention_story_gid m) = false.
Proof.
  split.
  - intros E m Hm. destruct (truthy (mention_story_gid m)) eqn:Ht; [|done].
    pose proof (elem_of_mention_ids_of X m Hm Ht) as Hin.
    rewrite E in Hin. set_solver.
  - intros Hall. unfold mention_ids_of.
    apply set_eq. intros k. rewrite elem_of_list_to_set, list_elem_of_filter.
    split; [|set_solver].
    intros [Ht (m & -> & Hm)%list_elem_of_fmap].
    rewrite (Hall m Hm) in Ht. done.
Qed.

Lemma persisted_ids_marked now (X : list M) w :
  persisted_ids (mark_mentions_as_processed WriteOk now X w).1
  = persisted_ids w ∪ mention_ids_of X.
Proof.
  rewrite (persisted_ids_file (_ w).1).
  destruct (mark_spec WriteOk now X w) as [_ ->].
  destruct (decide (mention_ids_of X = ∅)) as [E|_].
  - by rewrite E, persisted_ids_file, union_empty_r_L.
  - apply ids_of_saved_document.
Qed.

Lemma mention_ids_of_app (X Y : list M) :
  mention_ids_of (X ++ Y) = mention_ids_of X ∪ mention_ids_of Y.
Proof.
  unfold mention_ids_of. rewrite fmap_app, filter_app.
  apply list_to_set_app_L.
Qed.

(** X1. What a completed [save_processed_mentions] writes loads back as
    the union of the identifiers found on disk and the new ones, with
    ['total_processed'] the number of identifiers in that union and
    ['last_updated'] the clock reading of the save. *)
Theorem save_then_load now (ids : gset key) w :
  (load_processed_mentions (save_processed_mentions WriteOk now ids None w).1).2
  = Return (TrackerData (persisted_ids w ∪ ids) (Some (JStr now))
              (Some (JNum (Z.of_nat (size (persisted_ids w ∪ ids)))))).
Proof.
  destruct (save_spec WriteOk now ids w) as [_ Hf].
  rewrite (load_document _ _ Hf). by rewrite load_body_saved_document.
Qed.

(** X2. [mark_mentions_as_processed] on mentions none of which carries an
    identifier (an empty list among them) touches nothing: no file is
    written, no directory made, no line logged, whatever the write would
    have done. *)
Theorem mark_without_ids_is_noop wr now (X : list M) w :
  (∀ m, m ∈ X → truthy (mention_story_gid m) = false) →
  mark_mentions_as_processed wr now X w = (w, Return ()).
Proof.
  intros Hall. unfold mark_mentions_as_processed.
  by rewrite decide_True by by apply mention_ids_of_empty.
Qed.

(** X3. Completed marks accumulate: after marking [X] and then [Y] the
    ledger holds what it held before together with the identifiers of [X]
    and of [Y]; this is what marking [Y] then [X], or [X ++ Y] in one call,
    leaves as well. *)
Theorem marks_accumulate now1 now2 (X Y : list M) w :
  persisted_ids
    (mark_mentions_as_processed WriteOk now2 Y
       (mark_mentions_as_processed WriteOk now1 X w).1).1
  = persisted_ids w ∪ mention_ids_of X ∪ mention_ids_of Y
  ∧ persisted_ids
      (mark_mentions_as_processed WriteOk now2 Y
         (mark_mentions_as_processed WriteOk now1 X w).1).1
    = persisted_ids
        (mark_mentions_as_processed WriteOk now1 X
           (mark_mentions_as_processed WriteOk now2 Y w).1).1
  ∧ persisted_ids
      (mark_mentions_as_processed WriteOk now2 Y
         (mark_mentions_as_processed WriteOk now1 X w).1).1
    = persisted_ids (mark_mentions_as_processed WriteOk now2 (X ++ Y) w).1.
Proof.
  rewrite !persisted_ids_marked, mention_ids_of_app.
  split_and!; [done| |by rewrite (assoc_L (∪))].
  by rewrite <- !(assoc_L (∪)), (comm_L (∪) (mention_ids_of X)).
Qed.

End LedgerMore.

(** X4. [save_processed_mentions] called with [existing_data] does not
    read the ledger file: after a completed write the ledger holds the
    identifiers of [existing_data] and the new ones, and nothing else of
    what the file held. *)
Theorem save_with_existing_data_replaces now (ids : gset key)
    (existing : tracker_data) w :
  persisted_ids (save_processed_mentions WriteOk now ids (Some existing) w).1
  = processed_ids existing ∪ ids.
Proof.
  rewrite persisted_ids_file. unfold save_processed_mentions. simpl.
  apply ids_of_saved_document.
Qed.

(** X5. A ledger file that holds a JSON object without ['processed_ids']
    loads as a record with no identifiers and the other two fields as the
    file has them; this is no error, nothing is logged for it. *)
Theorem load_without_processed_ids w kvs :
  tracker_file w = Document (JObj kvs) →
  dict_get "processed_ids" kvs = None →
  load_processed_mentions w
  = (_ensure_data_dir w,
     Return (TrackerData ∅ (dict_get "last_updated" kvs)
               (dict_get "total_processed" kvs))).
Proof.
  intros Hf Hk. unfold load_processed_mentions.
  rewrite ensure_data_dir_file, Hf. unfold load_body. simpl.
  by rewrite Hk.
Qed.

Lemma mark_without_ids_is_noop_witness :
  mark_mentions_as_processed DumpRaises "2025-01-06T09:00:00"
    [anonymous; [("mention_story_gid", KStr "")]] fresh_world
  = (fresh_world, Return ()).
Proof.
  apply (mark_without_ids_is_noop DumpRaises "2025-01-06T09:00:00"
           [anonymous; [("mention_story_gid", KStr "")]] fresh_world).
  intros m Hm.
  repeat (apply elem_of_cons in Hm as [->|Hm]; [reflexivity|]).
  by inversion Hm.
Defined.

Lemma load_without_processed_ids_witness :
  load_processed_mentions
    (World false (Document (JObj [("total_processed", JNum 3)])) [])
  = (_ensure_data_dir
       (World false (Document (JObj [("total_processed", JNum 3)])) []),
     Return (TrackerData ∅ None (Some (JNum 3)))).
Proof.
  apply (load_without_processed_ids
           (World false (Document (JObj [("total_processed", JNum 3)])) [])
           [("total_processed", JNum 3)]); reflexivity.
Defined.

(* ===================================================================== *)
(** * Further properties of the reconciler                               *)
(* ===================================================================== *)

Lemma lstrip_at_no_at s s' : lstrip_at s ≠ String "@"%char s'.
Proof.
  induction s as [|c s IH]; [done|]. simpl.
  destruct (Ascii.eqb c "@"%char) eqn:E; [done|].
  intros [= -> _]. by rewrite Ascii.eqb_refl in E.
Qed.

(** X6. Every mention [extract_mentions_from_html] returns comes from a
    link marked [data-asana-type="user"] that carries a non-empty
    [data-asana-gid]; its name is the text of the link without leading
    ['@'] signs.  Text that contains no such link yields nothing. *)
Theorem extracted_mentions_are_user_links html (r : user_ref) :
  r ∈ extract_mentions_from_html html →
  user_gid r ≠ ""
  ∧ (∀ s, user_name r ≠ String "@"%char s)
  ∧ ∃ links link,
      html = Markup links ∧ link ∈ links
      ∧ data_asana_type link = Some "user"
      ∧ data_asana_gid link = Some (user_gid r)
      ∧ user_name r = lstrip_at (get_text link).
Proof.
  destruct html as [| |links]; [by inversion 1..|]. simpl.
  intros (link & Hr & [Ht Hl]%list_elem_of_filter)%list_elem_of_bind.
  unfold mention_of_link in Hr.
  destruct (data_asana_gid link) as [g|] eqn:Hg; [|by inversion Hr].
  destruct (String.eqb g "") eqn:E; [by inversion Hr|].
  apply list_elem_of_singleton in Hr as ->. simpl.
  split_and!.
  - intros ->. by rewrite String.eqb_refl in E.
  - intros s. apply lstrip_at_no_at.
  - exists links, link. by rewrite Hg.
Qed.

Lemma extracted_mentions_are_user_links_witness :
  user_gid (UserRef Scenario.bob "Bob") ≠ ""
  ∧ (∀ s, user_name (UserRef Scenario.bob "Bob") ≠ String "@"%char s)
  ∧ ∃ links link,
      Markup [Anchor (Some "user") (Some Scenario.bob) "@@Bob"] = Markup links
      ∧ link ∈ links
      ∧ data_asana_type link = Some "user"
      ∧ data_asana_gid link = Some (user_gid (UserRef Scenario.bob "Bob"))
      ∧ user_name (UserRef Scenario.bob "Bob") = lstrip_at (get_text link).
Proof.
  apply (extracted_mentions_are_user_links
           (Markup [Anchor (Some "user") (Some Scenario.bob) "@@Bob"])
           (UserRef Scenario.bob "Bob")).
  vm_compute. left.
Defined.

(** ** The dict of monitored identities *)

Lemma dict_set_keys k v d :
  (dict_set k v d).*1 = if decide (k ∈ d.*1) then d.*1 else d.*1 ++ [k].
Proof.
  induction d as [|[k' v'] d IH]; [done|].
  cbn [dict_set]. destruct (String.eqb k' k) eqn:E.
  - apply String.eqb_eq in E as ->. rewrite !fmap_cons. cbn [fst].
    rewrite decide_True; [done|]. by left.
  - apply String.eqb_neq in E. rewrite !fmap_cons, IH. cbn [fst].
    destruct (decide (k ∈ d.*1)) as [Hin|Hin].
    + rewrite decide_True; [done|]. by right.
    + rewrite decide_False; [done|].
      intros [->|?]%elem_of_cons; done.
Qed.

Lemma elem_of_dict_set k v d k0 v0 :
  (k0, v0) ∈ dict_set k v d → (k0, v0) = (k, v) ∨ (k0, v0) ∈ d.
Proof.
  induction d as [|[k' v'] d IH]; simpl.
  - intros ->%list_elem_of_singleton. by left.
  - destruct (String.eqb k' k).
    + intros [->|?]%elem_of_cons; [by left|]. right. by right.
    + intros [->|Hin]%elem_of_cons; [right; by left|].
      destruct (IH Hin) as [?|?]; [by left|]. right. by right.
Qed.

(** X7. The dict [monitored_user_gids] holds every identifier once, also
    when several of the configured names resolve to it, and every item
    pairs a non-empty identifier with a configured name that resolves to
    it. *)
Theorem monitored_user_gids_distinct (c : client) (names : list string) :
  NoDup (foldl (resolve c) [] names).*1
  ∧ ∀ gid name, (gid, name) ∈ foldl (resolve c) [] names →
      name ∈ names ∧ get_user_gid_by_name c name = Some gid ∧ gid ≠ "".
Proof.
  assert (∀ d,
    NoDup d.*1 →
    NoDup (foldl (resolve c) d names).*1
    ∧ ∀ gid name, (gid, name) ∈ foldl (resolve c) d names →
        (gid, name) ∈ d
        ∨ (name ∈ names ∧ get_user_gid_by_name c name = Some gid ∧ gid ≠ ""))
    as Hgen.
  { induction names as [|n names IH]; intros d Hd; [by split; [|left]|].
    cbn [foldl].
    assert (NoDup (resolve c d n).*1) as Hd'.
    { unfold resolve. destruct (get_user_gid_by_name c n) as [g|]; [|done].
      destruct (String.eqb g ""); [done|]. rewrite dict_set_keys.
      destruct (decide (g ∈ d.*1)); [done|].
      apply NoDup_app. split_and!; [done| |apply NoDup_singleton].
      intros x Hx ->%list_elem_of_singleton. done. }
    destruct (IH _ Hd') as [Hnd Hin]. split; [done|].
    intros gid name [Hold|(Hn & Hg & Hne)]%Hin.
    - unfold resolve in Hold.
      destruct (get_user_gid_by_name c n) as [g|] eqn:Hg; [|by left].
      destruct (String.eqb g "") eqn:E; [by left|].
      apply elem_of_dict_set in Hold as [[= -> ->]|?]; [|by left].
      right. split_and!; [by left|done|].
      intros ->. by rewrite String.eqb_refl in E.
    - right. split_and!; [by right|done..]. }
  destruct (Hgen [] (NoDup_nil_2)) as [Hnd Hin]. split; [done|].
  intros gid name [Hnil|?]%Hin; [by inversion Hnil|done].
Qed.

(** X8. When none of the configured names resolves to a non-empty
    identifier, [get_unanswered_mentions] returns the empty list whatever
    the work items hold, comments without ['created_at'] included. *)
Theorem no_monitored_identity_no_mentions (c : client) (now : Z)
    (names : list string) (lookback_hours : Z) :
  (∀ name, name ∈ names →
     get_user_gid_by_name c name = None ∨ get_user_gid_by_name c name = Some "") →
  get_unanswered_mentions c now names lookback_hours = Return [].
Proof.
  intros Hnone. unfold get_unanswered_mentions.
  assert (foldl (resolve c) [] names = []) as ->; [|done].
  induction names as [|n names IH]; [done|]. cbn [foldl].
  assert (resolve c [] n = []) as ->.
  { unfold resolve. destruct (Hnone n) as [-> | ->]; [by left|done..]. }
  apply IH. intros name Hname. apply Hnone. by right.
Qed.

Lemma no_monitored_identity_no_mentions_witness :
  get_unanswered_mentions
    (Scenario.workspace [Scenario.c1; Scenario.c2_undated; Scenario.c3])
    Scenario.now ["Carol"; "Dave"] 24
  = Return [].
Proof.
  apply (no_monitored_identity_no_mentions
           (Scenario.workspace [Scenario.c1; Scenario.c2_undated; Scenario.c3])
           Scenario.now ["Carol"; "Dave"] 24).
  intros name Hname. left.
  repeat (apply elem_of_cons in Hname as [->|Hname]; [reflexivity|]).
  by inversion Hname.
Defined.

(** ** What a pass that returns has reported *)

Lemma for_each_appends {A B} (body : list B → A → outcome (list B))
    (f : A → list B) (xs : list A) (acc out : list B) :
  (∀ acc x out, x ∈ xs → body acc x = Return out → out = acc ++ f x) →
  for_each body xs acc = Return out → out = acc ++ (xs ≫= f).
Proof.
  revert acc. induction xs as [|x xs IH]; intros acc Hbody Hout.
  - injection Hout as <-. by rewrite app_nil_r.
  - cbn [for_each] in Hout.
    destruct (body acc x) as [acc'|e] eqn:E; [|done]. cbn [Py.bind] in Hout.
    apply Hbody in E as ->; [|by left].
    apply IH in Hout as ->.
    + by rewrite bind_cons, app_assoc.
    + intros acc' x' out' Hx'. apply Hbody. by right.
Qed.

Lemma check_user_returned since task comments acc user out :
  check_user since task comments acc user = Return out →
  out = acc ++ events_for since task comments user.
Proof.
  destruct user as [user_gid user_name]. unfold check_user.
  destruct (walk user_gid comments) as [[cands last]|e] eqn:Hw; [|done].
  apply walk_loop_returned in Hw as [-> ->].
  intros [= <-]. by rewrite select_loop.
Qed.

Lemma check_task_returned (c : client) since monitored acc task out :
  check_task c since monitored acc task = Return out →
  out = acc ++ (monitored ≫=
                  events_for since task (get_stories_for_task c (Task.gid task))).
Proof.
  unfold check_task.
  destruct (get_stories_for_task c (Task.gid task)) as [|c0 comments] eqn:E.
  - intros [= <-]. by rewrite events_for_no_comments, app_nil_r.
  - apply for_each_appends. intros acc' u out' _. apply check_user_returned.
Qed.

Lemma get_unanswered_mentions_returned (c : client) (now : Z)
    (names : list string) (lookback_hours : Z) out :
  get_unanswered_mentions c now names lookback_hours = Return out →
  out = get_tasks_modified_since c (now - lookback_hours * hour) ≫= λ task,
          foldl (resolve c) [] names ≫=
            events_for (now - lookback_hours * hour) task
              (get_stories_for_task c (Task.gid task)).
Proof.
  unfold get_unanswered_mentions.
  destruct (foldl (resolve c) [] names) as [|u monitored] eqn:E.
  - intros [= <-].
    induction (get_tasks_modified_since c _) as [|t ts IH]; [done|].
    by rewrite bind_cons, <- IH.
  - intros Hout.
    apply (for_each_appends _
             (λ task, (u :: monitored) ≫=
                events_for (now - lookback_hours * hour) task
                  (get_stories_for_task c (Task.gid task)))) in Hout; [done|].
    intros acc task out' _. apply check_task_returned.
Qed.

Lemma elem_of_candidates user_gid comments (m : mention_data) :
  m ∈ candidates user_gid comments ↔
  comment m ∈ comments
  ∧ Comment.created_at (comment m) = Some (IsoTime (mentioned_at m))
  ∧ Comment.author_gid (comment m) ≠ Some user_gid
  ∧ references user_gid (comment m) ≠ [].
Proof.
  unfold candidates. rewrite list_elem_of_bind. split.
  - intros (c & Hm & Hc).
    destruct (Comment.created_at c) as [[|t]|] eqn:Ht; [by inversion Hm| |by inversion Hm].
    destruct (decide (Comment.author_gid c = Some user_gid)); [by inversion Hm|].
    apply list_elem_of_fmap in Hm as (r & -> & Hr). simpl.
    split_and!; [done..|]. intros E. rewrite E in Hr. by inversion Hr.
  - intros (Hc & Ht & Ha & Hr). exists (comment m). split; [|done].
    rewrite Ht, decide_False by done.
    destruct (references user_gid (comment m)) as [|r rs]; [done|].
    rewrite fmap_cons. destruct m. by left.
Qed.

Lemma no_later_reply ts t :
  has_replied (foldl later None ts) t = false ↔ ∀ t', t' ∈ ts → t' ≤ t.
Proof.
  rewrite has_replied_false. split.
  - intros Hl t' Ht'.
    destruct (foldl later None ts) as [l|] eqn:E.
    + apply later_spec in E as (_ & Hmax & _).
      specialize (Hmax _ Ht'). specialize (Hl _ eq_refl). lia.
    + apply later_none in E. subst ts. by inversion Ht'.
  - intros Hall l Hl. apply later_spec in Hl as ([Hin|?] & _ & _); [|done].
    by apply Hall.
Qed.

Lemma elem_of_events_for since task comments user_gid user_name (e : Mention.t) :
  e ∈ events_for since task comments (user_gid, user_name) ↔
  ∃ c t,
    e = report task comments user_gid user_name (MentionData c t)
    ∧ c ∈ comments
    ∧ Comment.created_at c = Some (IsoTime t)
    ∧ Comment.author_gid c ≠ Some user_gid
    ∧ references user_gid c ≠ []
    ∧ since ≤ t
    ∧ ∀ c' t', c' ∈ comments → Comment.author_gid c' = Some user_gid →
        Comment.created_at c' = Some (IsoTime t') → t' ≤ t.
Proof.
  unfold events_for. simpl. rewrite list_elem_of_fmap. split.
  - intros (m & -> & [[Hs Hr] Hm]%list_elem_of_filter).
    apply elem_of_candidates in Hm as (Hc & Ht & Ha & Href).
    exists (comment m), (mentioned_at m). destruct m as [c t]. simpl in *.
    split_and!; [done..|].
    intros c' t' Hc' Ha' Ht'.
    apply (proj1 (no_later_reply _ _) Hr).
    by apply (elem_of_replies user_gid comments c' t').
  - intros (c & t & -> & Hc & Ht & Ha & Href & Hs & Hno).
    exists (MentionData c t). split; [done|].
    apply list_elem_of_filter. split.
    + split; [done|]. apply no_later_reply. intros t' Ht'.
      apply elem_of_replies_inv in Ht' as (c' & Hc' & Ha' & Ht'). eauto.
    + by apply elem_of_candidates.
Qed.

(** X9. What a pass that returns reports, and all it reports: an event is
    in the result of [get_unanswered_mentions] if and only if it is the
    report for a fetched work item, a monitored identity and a comment of
    that work item such that the comment has a readable ['created_at'] not
    before the start of the window, was written by somebody else, refers to
    the identity in its decorated form, and no readable comment of the
    identity in the work item is later. *)
Theorem reported_iff_unanswered_mention (c : client) (now : Z)
    (names : list string) (lookback_hours : Z) out (e : Mention.t) :
  get_unanswered_mentions c now names lookback_hours = Return out →
  e ∈ out ↔
  ∃ task user_gid user_name comment t,
    task ∈ get_tasks_modified_since c (now - lookback_hours * hour)
    ∧ (user_gid, user_name) ∈ foldl (resolve c) [] names
    ∧ comment ∈ get_stories_for_task c (Task.gid task)
    ∧ e = report task (get_stories_for_task c (Task.gid task))
            user_gid user_name (MentionData comment t)
    ∧ Comment.created_at comment = Some (IsoTime t)
    ∧ Comment.author_gid comment ≠ Some user_gid
    ∧ references user_gid comment ≠ []
    ∧ now - lookback_hours * hour ≤ t
    ∧ ∀ c' t', c' ∈ get_stories_for_task c (Task.gid task) →
        Comment.author_gid c' = Some user_gid →
        Comment.created_at c' = Some (IsoTime t') → t' ≤ t.
Proof.
  intros ->%get_unanswered_mentions_returned.
  rewrite list_elem_of_bind. split.
  - intros (task & (u & He & Hu)%list_elem_of_bind & Htask).
    destruct u as [user_gid user_name].
    apply elem_of_events_for in He
      as (c0 & t & -> & Hc & Ht & Ha & Hr & Hs & Hno).
    exists task, user_gid, user_name, c0, t. done.
  - intros (task & user_gid & user_name & c0 & t & Htask & Hu & Hc & -> & Ht
            & Ha & Hr & Hs & Hno).
    exists task. split; [|done].
    apply list_elem_of_bind. exists (user_gid, user_name). split; [|done].
    apply elem_of_events_for. exists c0, t. done.
Qed.

(** X10. No self-mentions and nothing stale: in the result of
    [get_unanswered_mentions] no event has the mentioned identity as the
    author of its comment, every event lies within the lookback window, and
    every event carries at most five recent comments. *)
Theorem reported_events_are_foreign_and_recent (c : client) (now : Z)
    (names : list string) (lookback_hours : Z) out :
  get_unanswered_mentions c now names lookback_hours = Return out →
  ∀ e, e ∈ out →
    Mention.author_gid e ≠ Some (Mention.mentioned_user_gid e)
    ∧ now - lookback_hours * hour ≤ Mention.comment_created_at e
    ∧ (length (Mention.recent_comments e) ≤ 5)%nat.
Proof.
  intros ->%get_unanswered_mentions_returned e
    (task & (u & He & Hu)%list_elem_of_bind & Htask)%list_elem_of_bind.
  destruct u as [user_gid user_name].
  apply elem_of_events_for in He as (c0 & t & -> & Hc & Ht & Ha & Hr & Hs & Hno).
  simpl. split_and!; [done..|].
  unfold last5. rewrite length_drop. lia.
Qed.

Lemma reported_iff_unanswered_mention_witness :
  report Scenario.W [Scenario.c1; Scenario.c2; Scenario.c3] Scenario.bob "Bob"
    (MentionData Scenario.c3 (10 * hour))
  ∈ [report Scenario.W [Scenario.c1; Scenario.c2; Scenario.c3] Scenario.bob "Bob"
       (MentionData Scenario.c3 (10 * hour))]
  ↔ ∃ task user_gid user_name comment t,
      task ∈ get_tasks_modified_since
               (Scenario.workspace [Scenario.c1; Scenario.c2; Scenario.c3])
               (Scenario.now - 24 * hour)
      ∧ (user_gid, user_name)
          ∈ foldl (resolve (Scenario.workspace [Scenario.c1; Scenario.c2; Scenario.c3]))
              [] ["Bob"]
      ∧ comment ∈ get_stories_for_task
                    (Scenario.workspace [Scenario.c1; Scenario.c2; Scenario.c3])
                    (Task.gid task)
      ∧ report Scenario.W [Scenario.c1; Scenario.c2; Scenario.c3] Scenario.bob "Bob"
          (MentionData Scenario.c3 (10 * hour))
        = report task
            (get_stories_for_task
               (Scenario.workspace [Scenario.c1; Scenario.c2; Scenario.c3])
               (Task.gid task))
            user_gid user_name (MentionData comment t)
      ∧ Comment.created_at comment = Some (IsoTime t)
      ∧ Comment.author_gid comment ≠ Some user_gid
      ∧ references user_gid comment ≠ []
      ∧ Scenario.now - 24 * hour ≤ t
      ∧ ∀ c' t',
          c' ∈ get_stories_for_task
                 (Scenario.workspace [Scenario.c1; Scenario.c2; Scenario.c3])
                 (Task.gid task) →
          Comment.author_gid c' = Some user_gid →
          Comment.created_at c' = Some (IsoTime t') → t' ≤ t.
Proof.
  apply (reported_iff_unanswered_mention
           (Scenario.workspace [Scenario.c1; Scenario.c2; Scenario.c3])
           Scenario.now ["Bob"] 24).
  vm_compute. reflexivity.
Defined.

Lemma reported_events_are_foreign_and_recent_witness :
  get_unanswered_mentions
    (Scenario.workspace [Scenario.c1; Scenario.c2; Scenario.c3])
    Scenario.now ["Bob"] 24
  = Return [report Scenario.W [Scenario.c1; Scenario.c2; Scenario.c3]
              Scenario.bob "Bob" (MentionData Scenario.c3 (10 * hour))]
  ∧ Mention.author_gid
      (report Scenario.W [Scenario.c1; Scenario.c2; Scenario.c3]
         Scenario.bob "Bob" (MentionData Scenario.c3 (10 * hour)))
    ≠ Some Scenario.bob
  ∧ Scenario.now - 24 * hour ≤ 10 * hour
  ∧ (length [Scenario.c1; Scenario.c2; Scenario.c3] ≤ 5)%nat.
Proof.
  split; [vm_compute; reflexivity|].
  apply (reported_events_are_foreign_and_recent
           (Scenario.workspace [Scenario.c1; Scenario.c2; Scenario.c3])
           Scenario.now ["Bob"] 24
           [report Scenario.W [Scenario.c1; Scenario.c2; Scenario.c3]
              Scenario.bob "Bob" (MentionData Scenario.c3 (10 * hour))]);
    [vm_compute; reflexivity|left].
Defined.

(** ** The window and the order of the timeline *)

Lemma walk_of_unanswered_for since task comments user_gid user_name out :
  unanswered_for since task comments user_gid user_name = Return out →
  walk user_gid comments
  = Return (candidates user_gid comments,
            foldl later None (replies user_gid comments)).
Proof.
  unfold unanswered_for, check_user.
  destruct (walk user_gid comments) as [[cands last]|e] eqn:Hw; [|done].
  intros _. by apply walk_loop_returned in Hw as [-> ->].
Qed.

Lemma filter_sublist_impl {A} (P Q : A → Prop)
    `{∀ a, Decision (P a)} `{∀ a, Decision (Q a)} (l : list A) :
  (∀ a, P a → Q a) → filter P l `sublist_of` filter Q l.
Proof.
  intros HPQ. induction l as [|a l IH]; [done|].
  rewrite !filter_cons.
  destruct (decide (P a)) as [Hp|Hp].
  - rewrite decide_True by auto. by constructor.
  - destruct (decide (Q a)); [by constructor|done].
Qed.

(** X11. A longer lookback only adds: on one timeline, the events reported
    with a window that starts at [since] are, in the same order, among the
    events reported with a window that starts earlier. *)
Theorem longer_window_reports_more since since' task comments
    user_gid user_name out :
  since' ≤ since →
  unanswered_for since task comments user_gid user_name = Return out →
  ∃ out',
    unanswered_for since' task comments user_gid user_name = Return out'
    ∧ out `sublist_of` out'.
Proof.
  intros Hle Hout.
  pose proof (walk_of_unanswered_for _ _ _ _ _ _ Hout) as Hw.
  rewrite (unanswered_for_returned _ _ _ _ _ _ _ Hw) in Hout.
  injection Hout as <-.
  eexists. split; [by apply unanswered_for_returned|].
  apply fmap_sublist, filter_sublist_impl.
  intros m [Hs Hr]. split; [lia|done].
Qed.

Lemma longer_window_reports_more_witness :
  ∃ out',
    unanswered_for (Scenario.now - 24 * hour) Scenario.W
      [Scenario.c1; Scenario.c3] Scenario.bob "Bob" = Return out'
    ∧ [report Scenario.W [Scenario.c1; Scenario.c3] Scenario.bob "Bob"
         (MentionData Scenario.c3 (10 * hour))] `sublist_of` out'.
Proof.
  apply (longer_window_reports_more (Scenario.now - 3 * hour)
           (Scenario.now - 24 * hour) Scenario.W
           [Scenario.c1; Scenario.c3] Scenario.bob "Bob").
  - by vm_compute.
  - vm_compute. reflexivity.
Defined.

Lemma later_permutation ts ts' :
  ts ≡ₚ ts' → foldl later None ts = foldl later None ts'.
Proof.
  intros Hp.
  destruct (foldl later None ts) as [l|] eqn:E;
    destruct (foldl later None ts') as [l'|] eqn:E'.
  - apply later_spec in E as ([Hin|?] & Hmax & _); [|done].
    apply later_spec in E' as ([Hin'|?] & Hmax' & _); [|done].
    rewrite Hp in Hin. rewrite <- Hp in Hin'.
    specialize (Hmax _ Hin'). specialize (Hmax' _ Hin). f_equal. lia.
  - apply later_none in E'. subst ts'. apply Permutation_nil_r in Hp.
    subst ts. done.
  - apply later_none in E. subst ts. apply Permutation_nil_l in Hp.
    subst ts'. done.
  - done.
Qed.

Lemma undated_decidable comments :
  dated comments ∨ ∃ c, c ∈ comments ∧ Comment.created_at c = None.
Proof.
  induction comments as [|c comments [IH|(c0 & Hin & Hc0)]].
  - left. by inversion 1.
  - destruct (Comment.created_at c) eqn:E.
    + left. intros c' [->|?]%elem_of_cons; [by rewrite E|by apply IH].
    + right. exists c. split; [by left|done].
  - right. exists c0. split; [by right|done].
Qed.

Lemma unanswered_for_dated since task comments user_gid user_name out :
  unanswered_for since task comments user_gid user_name = Return out →
  dated comments.
Proof.
  intros Hout. destruct (undated_decidable comments) as [?|Hex]; [done|].
  apply (walk_loop_raises user_gid comments [] None) in Hex.
  apply walk_of_unanswered_for in Hout. unfold walk in Hout. congruence.
Qed.

(** X12. Which comments are reported does not depend on the order in
    which the timeline is handed over: for two timelines that are
    permutations of each other the pass returns on both or on neither, and
    the reported comment identifiers are the same up to order. *)
Theorem reported_comments_up_to_order since task comments comments'
    user_gid user_name out :
  comments ≡ₚ comments' →
  unanswered_for since task comments user_gid user_name = Return out →
  ∃ out',
    unanswered_for since task comments' user_gid user_name = Return out'
    ∧ Mention.mention_story_gid <$> out ≡ₚ Mention.mention_story_gid <$> out'.
Proof.
  intros Hp Hout.
  pose proof (unanswered_for_dated _ _ _ _ _ _ Hout) as Hd.
  assert (dated comments') as Hd'.
  { intros c Hc. apply Hd. by rewrite Hp. }
  pose proof (walk_loop_returns user_gid comments [] None Hd) as Hw.
  pose proof (walk_loop_returns user_gid comments' [] None Hd') as Hw'.
  rewrite (unanswered_for_returned _ _ _ _ _ _ _ Hw) in Hout.
  injection Hout as <-.
  eexists. split; [by apply unanswered_for_returned|].
  rewrite <- !list_fmap_compose. simpl.
  assert (replies user_gid comments ≡ₚ replies user_gid comments') as Hr
    by (unfold replies; by rewrite Hp).
  rewrite (later_permutation _ _ Hr).
  assert (candidates user_gid comments ≡ₚ candidates user_gid comments') as Hc
    by (unfold candidates; by rewrite Hp).
  rewrite Hc.
  apply Permutation_refl.
Qed.

Lemma reported_comments_up_to_order_witness :
  ∃ out',
    unanswered_for (Scenario.now - 24 * hour) Scenario.W
      [Scenario.c3; Scenario.c2; Scenario.c1] Scenario.bob "Bob" = Return out'
    ∧ Mention.mention_story_gid
        <$> [report Scenario.W [Scenario.c1; Scenario.c2; Scenario.c3]
               Scenario.bob "Bob" (MentionData Scenario.c3 (10 * hour))]
      ≡ₚ Mention.mention_story_gid <$> out'.
Proof.
  apply (reported_comments_up_to_order (Scenario.now - 24 * hour) Scenario.W
           [Scenario.c1; Scenario.c2; Scenario.c3]
           [Scenario.c3; Scenario.c2; Scenario.c1] Scenario.bob "Bob").
  - symmetry. apply (reverse_Permutation [Scenario.c1; Scenario.c2; Scenario.c3]).
  - vm_compute. reflexivity.
Defined.

(** ** The verdict on a candidate, and the identity that never answers *)

(** The links in the decorated form of a comment that name [user_gid]:
    [<a data-asana-type="user" data-asana-gid="user_gid">]. *)
Definition links_to (user_gid : string) (c : Comment.t) : list anchor :=
  match Comment.html_text c with
  | Markup links =>
      filter (λ l, data_asana_type l = Some "user"
                   ∧ data_asana_gid l = Some user_gid) links
  | Blank | Unparsable => []
  end.

(** The latest instant at which [user_gid] posted in a timeline, if it
    posted at all. *)
Definition last_reply_at (user_gid : string) (comments : list Comment.t)
  : option Z :=
  match replies user_gid comments with
  | [] => None
  | t :: ts => Some (foldl Z.max t ts)
  end.

(** The result holds an event for the work item, the identity and the
    comment, at instant [t]. *)
Definition reported (out : list Mention.t) (task : Task.t)
    (user_gid : string) (comment : Comment.t) (t : Z) : Prop :=
  ∃ e, e ∈ out
       ∧ Mention.task_gid e = Task.gid task
       ∧ Mention.mentioned_user_gid e = user_gid
       ∧ Mention.mention_story_gid e = Comment.gid comment
       ∧ Mention.comment_created_at e = t.


Lemma later_is_max l ts : foldl later (Some l) ts = Some (foldl Z.max l ts).
Proof.
  revert l. induction ts as [|t ts IH]; intros l; [done|].
  cbn [foldl later]. destruct (l <? t) eqn:E.
  - apply Z.ltb_lt in E. by rewrite IH, Z.max_r by lia.
  - apply Z.ltb_ge in E. by rewrite IH, Z.max_l by lia.
Qed.

Lemma last_reply_at_walked user_gid comments :
  foldl later None (replies user_gid comments) = last_reply_at user_gid comments.
Proof.
  unfold last_reply_at. destruct (replies user_gid comments) as [|t ts]; [done|].
  cbn [foldl later]. apply later_is_max.
Qed.

Lemma references_links user_gid (c : Comment.t) :
  user_gid ≠ "" →
  length (references user_gid c) = length (links_to user_gid c).
Proof.
  intros Hne. unfold references, links_to, extract_mentions_from_html.
  destruct (Comment.html_text c) as [| |links]; [done..|].
  induction links as [|l links IH]; [done|].
  rewrite !filter_cons.
  destruct (decide (data_asana_type l = Some "user")) as [Ht|Ht].
  - rewrite bind_cons, filter_app, length_app, IH. unfold mention_of_link.
    destruct (data_asana_gid l) as [g|] eqn:Hg.
    + destruct (String.eqb g "") eqn:E.
      * apply String.eqb_eq in E as ->.
        rewrite decide_False; [done|]. intros [_ [= <-]]. done.
      * rewrite filter_cons, filter_nil. simpl.
        destruct (decide (g = user_gid)) as [->|Hg'].
        -- by rewrite decide_True.
        -- rewrite decide_False; [done|]. intros [_ [= ->]]. done.
    + rewrite decide_False; [done|]. by intros [_ ?].
  - rewrite IH. rewrite decide_False; [done|]. by intros [? _].
Qed.

Lemma references_nonempty user_gid (c : Comment.t) :
  user_gid ≠ "" → links_to user_gid c ≠ [] → references user_gid c ≠ [].
Proof.
  intros Hne Hl Hr. apply Hl.
  apply length_zero_iff_nil. rewrite <- references_links by done.
  by rewrite Hr.
Qed.

(** The items of [monitored_user_gids]: distinct, non-empty identifiers. *)
Lemma resolve_loop_keys (c : client) names d :
  NoDup d.*1 → (∀ g n, (g, n) ∈ d → g ≠ "") →
  NoDup (foldl (resolve c) d names).*1
  ∧ ∀ g n, (g, n) ∈ foldl (resolve c) d names → g ≠ "".
Proof.
  revert d. induction names as [|name names IH]; intros d Hd Hne; [done|].
  cbn [foldl]. apply IH.
  - unfold resolve. destruct (get_user_gid_by_name c name) as [g|]; [|done].
    destruct (String.eqb g ""); [done|]. rewrite dict_set_keys.
    destruct (decide (g ∈ d.*1)); [done|].
    apply NoDup_app. split_and!; [done| |apply NoDup_singleton].
    intros x Hx ->%list_elem_of_singleton. done.
  - intros g n. unfold resolve.
    destruct (get_user_gid_by_name c name) as [g0|]; [|apply Hne].
    destruct (String.eqb g0 "") eqn:E; [apply Hne|].
    intros [[= -> ->]|Hin]%elem_of_dict_set; [|by apply (Hne g n)].
    intros ->. by rewrite String.eqb_refl in E.
Qed.

Lemma monitored_keys (c : client) names :
  NoDup (foldl (resolve c) [] names).*1
  ∧ ∀ g n, (g, n) ∈ foldl (resolve c) [] names → g ≠ "".
Proof.
  apply resolve_loop_keys; [apply NoDup_nil_2|]. intros g n Hin. by inversion Hin.
Qed.

(** A loop that came to its end has run its body to the end on every
    item. *)
Lemma for_each_returned {S A} (body : S → A → outcome S) (xs : list A)
    (s out : S) (x : A) :
  for_each body xs s = Return out → x ∈ xs →
  ∃ s0 s1, body s0 x = Return s1.
Proof.
  revert s. induction xs as [|x0 xs IH]; intros s Hout Hx; [by inversion Hx|].
  cbn [for_each] in Hout.
  destruct (body s x0) as [s'|e] eqn:E; [|done]. cbn [Py.bind] in Hout.
  apply elem_of_cons in Hx as [->|Hx]; [by eauto|].
  by apply (IH s').
Qed.

(** A pass that returns has walked every timeline it fetched, for every
    monitored identity. *)
Lemma walked (c : client) (now : Z) (names : list string) (lookback_hours : Z)
    out task user_gid user_name comment :
  get_unanswered_mentions c now names lookback_hours = Return out →
  task ∈ get_tasks_modified_since c (now - lookback_hours * hour) →
  (user_gid, user_name) ∈ foldl (resolve c) [] names →
  comment ∈ get_stories_for_task c (Task.gid task) →
  walk user_gid (get_stories_for_task c (Task.gid task))
  = Return (candidates user_gid (get_stories_for_task c (Task.gid task)),
            last_reply_at user_gid (get_stories_for_task c (Task.gid task))).
Proof.
  intros Hout Htask Hu Hc. unfold get_unanswered_mentions in Hout.
  destruct (foldl (resolve c) [] names) as [|u0 monitored] eqn:Hm;
    [by inversion Hu|].
  destruct (for_each_returned _ _ _ _ task Hout Htask) as (acc & out1 & Htk).
  unfold check_task in Htk.
  destruct (get_stories_for_task c (Task.gid task)) as [|c0 comments] eqn:Hs;
    [by inversion Hc|].
  destruct (for_each_returned _ _ _ _ (user_gid, user_name) Htk Hu)
    as (acc' & out2 & Hus).
  unfold check_user in Hus.
  destruct (walk user_gid (c0 :: comments)) as [[cands last]|e] eqn:Hw; [|done].
  apply walk_loop_returned in Hw as [-> ->].
  by rewrite last_reply_at_walked.
Qed.

Lemma reported_iff (c : client) (now : Z) (names : list string)
    (lookback_hours : Z) out task user_gid user_name comment t :
  get_unanswered_mentions c now names lookback_hours = Return out →
  task ∈ get_tasks_modified_since c (now - lookback_hours * hour) →
  (user_gid, user_name) ∈ foldl (resolve c) [] names →
  comment ∈ get_stories_for_task c (Task.gid task) →
  Comment.created_at comment = Some (IsoTime t) →
  Comment.author_gid comment ≠ Some user_gid →
  links_to user_gid comment ≠ [] →
  reported out task user_gid comment t
  ↔ now - lookback_hours * hour ≤ t
    ∧ ∀ t', t' ∈ replies user_gid (get_stories_for_task c (Task.gid task)) →
        t' ≤ t.
Proof.
  intros ->%get_unanswered_mentions_returned Htask Hu Hc Ht Ha Hl.
  split.
  - intros (e & (task' & (u & He & Hu')%list_elem_of_bind & Htask')
                   %list_elem_of_bind & Hg & Hug & _ & Het).
    destruct u as [user_gid' user_name'].
    apply elem_of_events_for in He
      as (c' & t' & -> & Hc' & Ht' & Ha' & Hr' & Hs' & Hno').
    simpl in Hg, Hug, Het. subst user_gid' t'. rewrite Hg in *.
    split; [done|]. intros t' Hin.
    apply elem_of_replies_inv in Hin as (c'' & Hc'' & Ha'' & Ht''). eauto.
  - intros [Hs Hno].
    exists (report task (get_stories_for_task c (Task.gid task))
              user_gid user_name (MentionData comment t)).
    split; [|done].
    apply list_elem_of_bind. exists task. split; [|done].
    apply list_elem_of_bind. exists (user_gid, user_name). split; [|done].
    apply elem_of_events_for. exists comment, t.
    split_and!; [done..| |done|].
    + apply references_nonempty; [|done].
      by apply (proj2 (monitored_keys c names) user_gid user_name).
    + intros c' t' Hc' Ha' Ht'. apply Hno.
      by apply (elem_of_replies user_gid _ c' t').
Qed.

Lemma last_reply_at_spec user_gid comments t :
  (∀ l, last_reply_at user_gid comments = Some l → l ≤ t)
  ↔ ∀ t', t' ∈ replies user_gid comments → t' ≤ t.
Proof.
  rewrite <- last_reply_at_walked, <- has_replied_false. apply no_later_reply.
Qed.

(** C1. In the result of [get_unanswered_mentions], for every work item
    the pass fetched and every monitored identity: a candidate, that is a
    comment of somebody else with a readable ['created_at'] [t] whose
    decorated form names the identity, has an event in the result if and
    only if [t] is within the lookback window and the last reply of the
    identity in that work item is undefined or not after [t], where the
    last reply is the value [user_last_reply_at] has at the end of the
    walk, the latest of the identity's comments.  In particular a comment
    of the identity strictly after [t] excludes the candidate, and where
    all its comments are at or before [t] a candidate within the window is
    reported. *)
Theorem unanswered_iff_no_later_reply (c : client) (now : Z)
    (names : list string) (lookback_hours : Z) out
    (task : Task.t) (user_gid user_name : string) (comment : Comment.t) (t : Z) :
  get_unanswered_mentions c now names lookback_hours = Return out →
  task ∈ get_tasks_modified_since c (now - lookback_hours * hour) →
  (user_gid, user_name) ∈ foldl (resolve c) [] names →
  comment ∈ get_stories_for_task c (Task.gid task) →
  Comment.created_at comment = Some (IsoTime t) →
  Comment.author_gid comment ≠ Some user_gid →
  links_to user_gid comment ≠ [] →
  (∃ mentions_to_user,
     walk user_gid (get_stories_for_task c (Task.gid task))
     = Return (mentions_to_user,
               last_reply_at user_gid (get_stories_for_task c (Task.gid task))))
  ∧ (reported out task user_gid comment t
     ↔ now - lookback_hours * hour ≤ t
       ∧ (last_reply_at user_gid (get_stories_for_task c (Task.gid task)) = None
          ∨ ∃ l, last_reply_at user_gid (get_stories_for_task c (Task.gid task))
                 = Some l ∧ l ≤ t))
  ∧ (∀ c' t', c' ∈ get_stories_for_task c (Task.gid task) →
       Comment.author_gid c' = Some user_gid →
       Comment.created_at c' = Some (IsoTime t') → t < t' →
       ¬ reported out task user_gid comment t)
  ∧ ((∀ c' t', c' ∈ get_stories_for_task c (Task.gid task) →
        Comment.author_gid c' = Some user_gid →
        Comment.created_at c' = Some (IsoTime t') → t' ≤ t) →
     now - lookback_hours * hour ≤ t →
     reported out task user_gid comment t).
Proof.
  intros Hout Htask Hu Hc Ht Ha Hl.
  pose proof (reported_iff _ _ _ _ _ _ _ _ _ _ Hout Htask Hu Hc Ht Ha Hl) as Hiff.
  split_and!.
  - eexists. by apply (walked c now names lookback_hours out task user_gid
                         user_name comment).
  - rewrite Hiff, <- last_reply_at_spec.
    destruct (last_reply_at user_gid _) as [l|].
    + split.
      * intros [Hs Hno]. split; [done|]. right. exists l. auto.
      * intros [Hs [?|(l' & [= <-] & Hle)]]; [done|].
        split; [done|]. by intros ? [= <-].
    + split; [intros [Hs _]; split; [done|by left]|].
      intros [Hs _]. split; [done|]. by intros.
  - intros c' t' Hc' Ha' Ht' Hlt [_ Hno]%Hiff.
    pose proof (Hno t' (elem_of_replies user_gid _ c' t' Hc' Ha' Ht')). lia.
  - intros Hall Hs. apply Hiff. split; [done|]. intros t' Hin.
    apply elem_of_replies_inv in Hin as (c' & Hc' & Ha' & Ht'). eauto.
Qed.






(** C1 at a concrete input: in the scenario, with Bob's reply at 5h
    between the two mentions, the mention in [C3] of 10h is reported and
    the mention in [C1] of 0h is not. *)
Lemma unanswered_iff_no_later_reply_witness :
  get_unanswered_mentions
    (Scenario.workspace [Scenario.c1; Scenario.c2; Scenario.c3])
    Scenario.now ["Bob"] 24
  = Return
      [report Scenario.W [Scenario.c1; Scenario.c2; Scenario.c3] Scenario.bob
         "Bob" (MentionData Scenario.c3 (10 * hour))]
  ∧ reported
      [report Scenario.W [Scenario.c1; Scenario.c2; Scenario.c3] Scenario.bob
         "Bob" (MentionData Scenario.c3 (10 * hour))]
      Scenario.W Scenario.bob Scenario.c3 (10 * hour)
  ∧ ¬ reported
        [report Scenario.W [Scenario.c1; Scenario.c2; Scenario.c3] Scenario.bob
           "Bob" (MentionData Scenario.c3 (10 * hour))]
        Scenario.W Scenario.bob Scenario.c1 0.
Proof.
  assert (get_unanswered_mentions
            (Scenario.workspace [Scenario.c1; Scenario.c2; Scenario.c3])
            Scenario.now ["Bob"] 24
          = Return
              [report Scenario.W [Scenario.c1; Scenario.c2; Scenario.c3]
                 Scenario.bob "Bob" (MentionData Scenario.c3 (10 * hour))])
    as Hout by (vm_compute; reflexivity).
  split; [exact Hout|]. split.
  - destruct (unanswered_iff_no_later_reply
                (Scenario.workspace [Scenario.c1; Scenario.c2; Scenario.c3])
                Scenario.now ["Bob"] 24 _ Scenario.W Scenario.bob "Bob"
                Scenario.c3 (10 * hour) Hout)
      as (_ & _ & _ & Hin).
    + left.
    + left.
    + right; right; left.
    + reflexivity.
    + discriminate.
    + discriminate.
    + apply Hin; [|by vm_compute].
      intros c' t' Hc' Ha' Ht'.
      repeat (apply elem_of_cons in Hc' as [->|Hc']);
        [discriminate| |discriminate|by inversion Hc'].
      injection Ht' as <-. by vm_compute.
  - destruct (unanswered_iff_no_later_reply
                (Scenario.workspace [Scenario.c1; Scenario.c2; Scenario.c3])
                Scenario.now ["Bob"] 24 _ Scenario.W Scenario.bob "Bob"
                Scenario.c1 0 Hout)
      as (_ & _ & Hout1 & _).
    + left.
    + left.
    + left.
    + reflexivity.
    + discriminate.
    + discriminate.
    + apply (Hout1 Scenario.c2 (5 * hour)); [right; left|done..|by vm_compute].
Defined.



(* ===================================================================== *)
(** * The fetching methods of the client:
      [src/integrations/asana_client.py]                                 *)
(* ===================================================================== *)

Module AsanaApi.

(** The exceptions these methods can meet: the built-in ones of [Py], and
    [KeyError] and the [ApiException] of the Asana library.  All are
    subclasses of [Exception]. *)
Inductive exc : Set :=
| KeyError
| ApiException
| Builtin (e : exn).

Inductive attempt (A : Type) : Type :=
| Done (a : A)
| Failed (e : exc).
Arguments Done {A} a.
Arguments Failed {A} e.

#[global] Instance attempt_bind : MBind attempt := λ A B k x,
  match x with
  | Done a => k a
  | Failed e => Failed e
  end.

(** A loop over a list whose body may raise. *)
Fixpoint each {S A} (body : S → A → attempt S) (xs : list A) (s : S)
  : attempt S :=
  match xs with
  | [] => Done s
  | x :: xs' => s' ← body s x; each body xs' s'
  end.

(** What a call of the Asana library hands over: the library returns an
    iterator, which yields items and may raise, at the call or while it is
    iterated. *)
Record fetched (A : Type) : Type := Fetched {
  yielded : list A;
  broke : option exc;
}.
Arguments Fetched {A} yielded broke.
Arguments yielded {A} f.
Arguments broke {A} f.

(** [for x in fetched: body]. *)
Definition iterate {S A} (body : S → A → attempt S) (f : fetched A) (s : S)
  : attempt S :=
  s' ← each body (yielded f) s;
  match broke f with
  | None => Done s'
  | Some e => Failed e
  end.

(** ** [get_stories_for_task] *)

(** The ['created_by'] member of a story. *)
Inductive created_by : Set :=
| NoCreatedBy                                    (* no such key: [{}] is used *)
| NullCreatedBy                                  (* the key holds [None] *)
| CreatedBy (name gid : option string).          (* a dict; [None] is a missing key *)

(** A story as the library yields it; [None] is a missing key. *)
Module Story.
Record t : Set := Make {
  gid : option string;
  created_at : option iso_text;
  created_by : AsanaApi.created_by;
  resource_subtype : option string;
  text : option string;
  html_text : option markup;
}.
End Story.

(** The dict literal of the loop; its members are evaluated in order, so a
    missing ['gid'] raises before [created_by.get] is tried. *)
Definition comment_of_story (story : Story.t) : attempt Comment.t :=
  gid ← match Story.gid story with
        | Some g => Done g
        | None => Failed KeyError
        end;
  author ← match Story.created_by story with
           | NoCreatedBy => Done ("Unknown", None)
           | NullCreatedBy => Failed (Builtin AttributeError)
           | CreatedBy name gid => Done (default "Unknown" name, gid)
           end;
  Done (Comment.Make gid (Story.created_at story) author.1 author.2
          (default "" (Story.text story))
          (default Blank (Story.html_text story))).

(** One turn of [for story in stories]. *)
Definition story_step (comments : list Comment.t) (story : Story.t)
  : attempt (list Comment.t) :=
  if decide (Story.resource_subtype story = Some "comment_added") then
    c ← comment_of_story story; Done (comments ++ [c])
  else Done comments.

(** [stories_api] is [self.stories_api.get_stories_for_task]. *)
Definition get_stories_for_task
    (stories_api : string → fetched Story.t) (task_gid : string)
  : list Comment.t :=
  match iterate story_step (stories_api task_gid) [] with
  | Done comments => comments
  | Failed _ => []
  end.

(** ** [get_user_gid_by_name] *)

(** A user as the library yields it; [None] is a missing key. *)
Module User.
Record t : Set := Make {
  name : option string;
  gid : option string;
}.
End User.

(** One turn of [for user in users]: the cache is written, and the loop
    returns at the user that bears the name. *)
Fixpoint scan_users (user_name : string) (users : list User.t)
    (cache : gmap string (option string))
  : gmap string (option string) * option (option string) :=
  match users with
  | [] => (cache, None)
  | user :: users' =>
      let name := default "" (User.name user) in
      let gid := User.gid user in
      let cache := <[name := gid]> cache in
      if decide (name = user_name) then (cache, Some gid)
      else scan_users user_name users' cache
  end.

(** [users_api] is [self.users_api.get_users_for_workspace]; the state is
    [self._user_gid_cache].  An exception of the iterator ends the loop
    like its exhaustion does: the method returns [None]. *)
Definition get_user_gid_by_name (users_api : fetched User.t)
    (user_name : string) (cache : gmap string (option string))
  : gmap string (option string) * option string :=
  match cache !! user_name with
  | Some gid => (cache, gid)
  | None =>
      match scan_users user_name (yielded users_api) cache with
      | (cache, Some gid) => (cache, gid)
      | (cache, None) => (cache, None)
      end
  end.

(** ** [get_tasks_modified_since] *)

(** A task as [tasks_api.get_tasks] yields it; [None] is a missing key. *)
Module RawTask.
Record t : Set := Make {
  gid : option string;
  name : option string;
  notes : option string;
  projects : option (list (option string));   (* the ['name'] of each project *)
  permalink_url : option string;
}.
End RawTask.

(** The first loop: [team_user_gids[user_name] = user['gid']] for the
    users named in [Config.TEAM_MEMBERS]. *)
Definition team_step (team_members : list string)
    (team_user_gids : list (string * string)) (user : User.t)
  : attempt (list (string * string)) :=
  let user_name := default "" (User.name user) in
  if decide (user_name ∈ team_members) then
    match User.gid user with
    | Some gid => Done (dict_set user_name gid team_user_gids)
    | None => Failed KeyError
    end
  else Done team_user_gids.

Definition project_name_of (task : RawTask.t) : string :=
  match RawTask.projects task with
  | Some (p :: _) => default "No Project" p
  | _ => "No Project"
  end.

(** One turn of [for task in user_tasks]; the state is [(tasks, seen_gids)]. *)
Definition task_step (st : list Task.t * gset string) (task : RawTask.t)
  : attempt (list Task.t * gset string) :=
  let '(tasks, seen_gids) := st in
  match RawTask.gid task with
  | None => Failed KeyError
  | Some gid =>
      if decide (gid ∈ seen_gids) then Done st
      else
        Done (tasks ++
                [Task.Make gid
                   (Some (default "Untitled" (RawTask.name task)))
                   (Some (default ("https://app.asana.com/0/0/" +:+ gid)
                            (RawTask.permalink_url task)))
                   (Some (project_name_of task))
                   (Some (default "" (RawTask.notes task)))],
              {[gid]} ∪ seen_gids)
  end.

(** A loop inside [try: ... except Exception: continue]: what was appended
    before the exception stays. *)
Fixpoint until_raise {S A} (body : S → A → attempt S) (xs : list A) (s : S) : S :=
  match xs with
  | [] => s
  | x :: xs' =>
      match body s x with
      | Done s' => until_raise body xs' s'
      | Failed _ => s
      end
  end.

(** One turn of [for name, user_gid in team_user_gids.items()]; an
    exception of the iterator comes after the tasks it yielded and changes
    nothing any more. *)
Definition member_step (tasks_api : string → Z → fetched RawTask.t) (since : Z)
    (st : list Task.t * gset string) (member : string * string)
  : list Task.t * gset string :=
  until_raise task_step (yielded (tasks_api member.2 since)) st.

(** [users_api] is [self.users_api.get_users_for_workspace], [tasks_api]
    is [self.tasks_api.get_tasks] by assignee and [modified_since]. *)
Definition get_tasks_modified_since (team_members : list string)
    (users_api : fetched User.t)
    (tasks_api : string → Z → fetched RawTask.t) (since : Z) : list Task.t :=
  match iterate (team_step team_members) users_api [] with
  | Failed _ => []
  | Done team_user_gids =>
      (foldl (member_step tasks_api since) ([], ∅) team_user_gids).1
  end.

End AsanaApi.

(* ===================================================================== *)
(** * Properties of the fetching methods                                 *)
(* ===================================================================== *)

(** A story that is a comment. *)
Definition is_comment (s : AsanaApi.Story.t) : Prop :=
  AsanaApi.Story.resource_subtype s = Some "comment_added".

#[global] Instance is_comment_dec s : Decision (is_comment s).
Proof. unfold is_comment. apply _. Defined.

(** A comment story the loop of [get_stories_for_task] cannot turn into a
    comment: it has no ['gid'], or its ['created_by'] is [None]. *)
Definition malformed (s : AsanaApi.Story.t) : Prop :=
  AsanaApi.Story.gid s = None
  ∨ AsanaApi.Story.created_by s = AsanaApi.NullCreatedBy.

(** The comment made of a well-formed comment story. *)
Definition comment_of (s : AsanaApi.Story.t) : Comment.t :=
  Comment.Make
    (default "" (AsanaApi.Story.gid s))
    (AsanaApi.Story.created_at s)
    match AsanaApi.Story.created_by s with
    | AsanaApi.CreatedBy name _ => default "Unknown" name
    | _ => "Unknown"
    end
    match AsanaApi.Story.created_by s with
    | AsanaApi.CreatedBy _ gid => gid
    | _ => None
    end
    (default "" (AsanaApi.Story.text s))
    (default Blank (AsanaApi.Story.html_text s)).

Lemma comment_of_story_spec s :
  AsanaApi.comment_of_story s
  = match AsanaApi.Story.gid s, AsanaApi.Story.created_by s with
    | None, _ => AsanaApi.Failed AsanaApi.KeyError
    | Some _, AsanaApi.NullCreatedBy =>
        AsanaApi.Failed (AsanaApi.Builtin AttributeError)
    | Some _, _ => AsanaApi.Done (comment_of s)
    end.
Proof.
  unfold AsanaApi.comment_of_story, comment_of.
  destruct (AsanaApi.Story.gid s); [|done].
  by destruct (AsanaApi.Story.created_by s).
Qed.

Lemma story_step_spec acc s :
  AsanaApi.story_step acc s
  = if decide (is_comment s)
    then match AsanaApi.comment_of_story s with
         | AsanaApi.Done c => AsanaApi.Done (acc ++ [c])
         | AsanaApi.Failed e => AsanaApi.Failed e
         end
    else AsanaApi.Done acc.
Proof.
  unfold AsanaApi.story_step, is_comment.
  destruct (decide (AsanaApi.Story.resource_subtype s = Some "comment_added"))
    as [E|E].
  - by destruct (AsanaApi.comment_of_story s).
  - done.
Qed.

Lemma stories_loop_well_formed stories acc :
  (∀ s, s ∈ stories → is_comment s → ¬ malformed s) →
  AsanaApi.each AsanaApi.story_step stories acc
  = AsanaApi.Done (acc ++ (comment_of <$> filter is_comment stories)).
Proof.
  revert acc. induction stories as [|s stories IH]; intros acc Hwf.
  - simpl. by rewrite app_nil_r.
  - cbn [AsanaApi.each]. rewrite story_step_spec, filter_cons.
    assert (∀ s', s' ∈ stories → is_comment s' → ¬ malformed s') as Hrest
      by (intros s' Hs'; apply Hwf; by right).
    destruct (decide (is_comment s)) as [Hc|Hc].
    + rewrite comment_of_story_spec.
      assert (¬ malformed s) as Hm by (apply Hwf; [by left|done]).
      destruct (AsanaApi.Story.gid s) as [g|] eqn:Hg;
        [|exfalso; apply Hm; by left].
      rewrite fmap_cons, (cons_middle _ acc), app_assoc.
      destruct (AsanaApi.Story.created_by s) eqn:Hb;
        [| exfalso; apply Hm; by right |];
        simpl; by rewrite (IH _ Hrest).
    + simpl. by apply IH.
Qed.

Lemma stories_loop_malformed stories acc :
  (∃ s, s ∈ stories ∧ is_comment s ∧ malformed s) →
  ∃ e, AsanaApi.each AsanaApi.story_step stories acc = AsanaApi.Failed e.
Proof.
  revert acc. induction stories as [|s stories IH]; intros acc (s0 & Hin & Hc & Hm).
  - by inversion Hin.
  - cbn [AsanaApi.each]. rewrite story_step_spec.
    apply elem_of_cons in Hin as [->|Hin].
    + rewrite decide_True by done. rewrite comment_of_story_spec.
      destruct Hm as [-> | Hm]; [by eexists|].
      rewrite Hm. destruct (AsanaApi.Story.gid s); by eexists.
    + assert (∃ s, s ∈ stories ∧ is_comment s ∧ malformed s) as Hex by eauto.
      destruct (decide (is_comment s)).
      * destruct (AsanaApi.comment_of_story s) as [c|e]; [|by eexists].
        simpl. by apply IH.
      * simpl. by apply IH.
Qed.

(** X13. When the iterator of stories comes to its end and every comment
    story has a ['gid'] and a ['created_by'] that is not [None],
    [get_stories_for_task] returns one comment for each comment story, in
    the order of the stories, and nothing for any other story; a missing
    author name reads ['Unknown'], missing text is empty. *)
Theorem comment_stories_become_comments
    (stories_api : string → AsanaApi.fetched AsanaApi.Story.t) task_gid :
  AsanaApi.broke (stories_api task_gid) = None →
  (∀ s, s ∈ AsanaApi.yielded (stories_api task_gid) →
        is_comment s → ¬ malformed s) →
  AsanaApi.get_stories_for_task stories_api task_gid
  = comment_of <$> filter is_comment (AsanaApi.yielded (stories_api task_gid)).
Proof.
  intros Hb Hwf. unfold AsanaApi.get_stories_for_task, AsanaApi.iterate.
  rewrite (stories_loop_well_formed _ [] Hwf). simpl. by rewrite Hb.
Qed.

(** X14. All or nothing: when the iterator of stories raises, or one
    comment story lacks its ['gid'] or has [None] as ['created_by'],
    [get_stories_for_task] returns no comment at all, the well-formed ones
    included; a pass over a client that fetches its comments this way then
    skips the work item without reporting anything for it. *)
Theorem one_bad_story_hides_the_work_item
    (stories_api : string → AsanaApi.fetched AsanaApi.Story.t)
    (c : client) since monitored acc (task : Task.t) :
  get_stories_for_task c = AsanaApi.get_stories_for_task stories_api →
  AsanaApi.broke (stories_api (Task.gid task)) ≠ None
  ∨ (∃ s, s ∈ AsanaApi.yielded (stories_api (Task.gid task))
          ∧ is_comment s ∧ malformed s) →
  AsanaApi.get_stories_for_task stories_api (Task.gid task) = []
  ∧ check_task c since monitored acc task = Return acc.
Proof.
  intros Hc Hbad.
  assert (AsanaApi.get_stories_for_task stories_api (Task.gid task) = []) as E.
  { unfold AsanaApi.get_stories_for_task, AsanaApi.iterate.
    destruct Hbad as [Hb|Hex].
    - destruct (AsanaApi.each _ _ _); simpl; [|done].
      by destruct (AsanaApi.broke _).
    - by destruct (stories_loop_malformed _ [] Hex) as [e ->]. }
  split; [done|]. unfold check_task. by rewrite Hc, E.
Qed.

(** ** The directory and its cache *)

Definition name_of (u : AsanaApi.User.t) : string :=
  default "" (AsanaApi.User.name u).

(** Every entry of the cache is an entry of the directory. *)
Definition cache_agrees (users : list AsanaApi.User.t)
    (cache : gmap string (option string)) : Prop :=
  ∀ n g, cache !! n = Some g →
    ∃ u, u ∈ users ∧ name_of u = n ∧ AsanaApi.User.gid u = g.

Lemma scan_users_spec user_name users all cache :
  (∀ u, u ∈ users → u ∈ all) →
  cache_agrees all cache →
  cache_agrees all (AsanaApi.scan_users user_name users cache).1
  ∧ match (AsanaApi.scan_users user_name users cache).2 with
    | Some g =>
        (∃ u, u ∈ users ∧ name_of u = user_name ∧ AsanaApi.User.gid u = g)
        ∧ (AsanaApi.scan_users user_name users cache).1 !! user_name = Some g
    | None => ∀ u, u ∈ users → name_of u ≠ user_name
    end.
Proof.
  revert cache. induction users as [|u users IH]; intros cache Hsub Hc.
  - simpl. split; [done|]. by inversion 1.
  - cbn [AsanaApi.scan_users]. fold (name_of u).
    assert (cache_agrees all (<[name_of u := AsanaApi.User.gid u]> cache)) as Hc'.
    { intros n g. rewrite lookup_insert.
      destruct (decide (name_of u = n)) as [<-|].
      - intros [= <-]. exists u. split; [apply Hsub; by left|done].
      - apply Hc. }
    destruct (decide (name_of u = user_name)) as [<-|Hne].
    + simpl. split; [done|]. split.
      * exists u. split; [by left|done].
      * by rewrite lookup_insert_eq.
    + destruct (IH (<[name_of u := AsanaApi.User.gid u]> cache)) as [Ha Hr];
        [intros u' Hu'; apply Hsub; by right|done|].
      split; [done|].
      destruct (AsanaApi.scan_users user_name users _).2 as [g|].
      * destruct Hr as [(u' & Hu' & Hn & Hg) Hl].
        split; [|done]. exists u'. split; [by right|done].
      * intros u' [->|Hu']%elem_of_cons; [done|by apply Hr].
Qed.

Lemma same_name_same_user (users : list AsanaApi.User.t) u u' :
  NoDup (name_of <$> users) → u ∈ users → u' ∈ users →
  name_of u = name_of u' → u = u'.
Proof.
  induction users as [|u0 users IH]; [by inversion 2|].
  rewrite fmap_cons. intros [Hnotin Hnd]%NoDup_cons.
  intros [->|Hu]%elem_of_cons [->|Hu']%elem_of_cons Hn; [done| | |by apply IH].
  - exfalso. apply Hnotin. rewrite Hn. by apply list_elem_of_fmap_2.
  - exfalso. apply Hnotin. rewrite <- Hn. by apply list_elem_of_fmap_2.
Qed.

(** X15. The cache is transparent when names are unique: if no two users
    of the workspace bear the same name and every entry of the cache is an
    entry of the directory, [get_user_gid_by_name] returns the identifier
    of the user that bears the name, or [None] when nobody does, and every
    entry of the cache it leaves is again an entry of the directory. *)
Theorem cached_lookup_is_directory_lookup
    (users_api : AsanaApi.fetched AsanaApi.User.t)
    (user_name : string) (cache : gmap string (option string)) :
  NoDup (name_of <$> AsanaApi.yielded users_api) →
  cache_agrees (AsanaApi.yielded users_api) cache →
  cache_agrees (AsanaApi.yielded users_api)
    (AsanaApi.get_user_gid_by_name users_api user_name cache).1
  ∧ (∀ u, u ∈ AsanaApi.yielded users_api → name_of u = user_name →
       (AsanaApi.get_user_gid_by_name users_api user_name cache).2
       = AsanaApi.User.gid u)
  ∧ ((∀ u, u ∈ AsanaApi.yielded users_api → name_of u ≠ user_name) →
       (AsanaApi.get_user_gid_by_name users_api user_name cache).2 = None).
Proof.
  intros Hnd Hc. unfold AsanaApi.get_user_gid_by_name.
  destruct (cache !! user_name) as [g|] eqn:Hhit.
  - simpl. split; [done|].
    destruct (Hc _ _ Hhit) as (u0 & Hu0 & Hn0 & Hg0). split.
    + intros u Hu Hn. rewrite <- Hg0. f_equal.
      apply (same_name_same_user _ _ _ Hnd); [done..|congruence].
    + intros Hnone. by apply Hnone in Hu0.
  - destruct (scan_users_spec user_name (AsanaApi.yielded users_api)
                (AsanaApi.yielded users_api) cache) as [Ha Hr]; [done..|].
    destruct (AsanaApi.scan_users user_name (AsanaApi.yielded users_api) cache)
      as [cache' [g|]]; simpl in *.
    + split; [done|]. destruct Hr as [(u0 & Hu0 & Hn0 & Hg0) _]. split.
      * intros u Hu Hn. rewrite <- Hg0. f_equal.
        apply (same_name_same_user _ _ _ Hnd); [done..|congruence].
      * intros Hnone. by apply Hnone in Hu0.
    + split; [done|]. split; [|done].
      intros u Hu Hn. by apply Hr in Hu.
Qed.


(** ** The tasks modified since *)

(** The state [(tasks, seen_gids)] of [get_tasks_modified_since] as the
    loops keep it: [seen_gids] holds the identifiers of [tasks], each once,
    and every task dict has all its keys. *)
Definition consistent (st : list Task.t * gset string) : Prop :=
  st.2 = list_to_set (Task.gid <$> st.1)
  ∧ NoDup (Task.gid <$> st.1)
  ∧ ∀ t, t ∈ st.1 →
      is_Some (Task.name t) ∧ is_Some (Task.permalink_url t)
      ∧ is_Some (Task.project_name t) ∧ is_Some (Task.notes t).

Lemma task_step_done st raw st' :
  AsanaApi.task_step st raw = AsanaApi.Done st' →
  ∃ g, AsanaApi.RawTask.gid raw = Some g
       ∧ st'.2 = {[g]} ∪ st.2
       ∧ (∀ t, t ∈ st'.1 →
            t ∈ st.1 ∨ (Task.gid t = g ∧ (g ∉ st.2)
                        ∧ is_Some (Task.name t) ∧ is_Some (Task.permalink_url t)
                        ∧ is_Some (Task.project_name t) ∧ is_Some (Task.notes t)))
       ∧ (∀ t, t ∈ st.1 → t ∈ st'.1)
       ∧ Task.gid <$> st'.1
         = if decide (g ∈ st.2) then Task.gid <$> st.1
           else (Task.gid <$> st.1) ++ [g].
Proof.
  destruct st as [tasks seen]. unfold AsanaApi.task_step.
  destruct (AsanaApi.RawTask.gid raw) as [g|]; [|done].
  destruct (decide (g ∈ seen)) as [Hin|Hin]; intros [= <-]; exists g; simpl.
  - split_and!; [done| |by left|done|].
    + symmetry. by apply subseteq_union_1_L, singleton_subseteq_l.
    + by rewrite decide_True.
  - split_and!; [done|done| | |].
    + intros t [?|Ht]%elem_of_app; [by left|].
      apply list_elem_of_singleton in Ht as ->.
      right. simpl. split_and!; by eauto.
    + intros t Ht. apply elem_of_app. by left.
    + rewrite decide_False by done. by rewrite fmap_app.
Qed.

Lemma task_step_consistent st raw st' :
  consistent st → AsanaApi.task_step st raw = AsanaApi.Done st' → consistent st'.
Proof.
  intros (Hseen & Hnd & Hfull) (g & Hg & Hs & Hnew & Hold & Hgids)%task_step_done.
  unfold consistent. rewrite Hs, Hgids.
  destruct (decide (g ∈ st.2)) as [Hin|Hin].
  - split_and!; [|done|].
    + rewrite <- Hseen. apply subseteq_union_1_L.
      by apply singleton_subseteq_l.
    + intros t [Ht|(_ & Hn & _)]%Hnew; [by apply Hfull|done].
  - split_and!.
    + rewrite list_to_set_app_L, <- Hseen. simpl.
      rewrite union_empty_r_L. apply union_comm_L.
    + apply NoDup_app. split_and!; [done| |apply NoDup_singleton].
      intros x Hx Hxg. apply list_elem_of_singleton in Hxg as ->.
      apply Hin. rewrite Hseen. by apply elem_of_list_to_set.
    + intros t [Ht|(_ & _ & Hf)]%Hnew; [by apply Hfull|done].
Qed.

Lemma until_raise_consistent raws st :
  consistent st →
  consistent (AsanaApi.until_raise AsanaApi.task_step raws st)
  ∧ st.2 ⊆ (AsanaApi.until_raise AsanaApi.task_step raws st).2.
Proof.
  revert st. induction raws as [|raw raws IH]; intros st Hst; [done|].
  cbn [AsanaApi.until_raise].
  destruct (AsanaApi.task_step st raw) as [st'|e] eqn:E; [|done].
  destruct (IH st' (task_step_consistent _ _ _ Hst E)) as [Hc Hsub].
  split; [done|].
  apply task_step_done in E as (g & _ & Hs & _).
  etrans; [|exact Hsub]. rewrite Hs. apply union_subseteq_r.
Qed.

Lemma members_loop_consistent tasks_api since team st :
  consistent st →
  consistent (foldl (AsanaApi.member_step tasks_api since) st team)
  ∧ st.2 ⊆ (foldl (AsanaApi.member_step tasks_api since) st team).2.
Proof.
  revert st. induction team as [|m team IH]; intros st Hst; [done|].
  cbn [foldl]. unfold AsanaApi.member_step at 2 4.
  destruct (until_raise_consistent
              (AsanaApi.yielded (tasks_api m.2 since)) st Hst) as [Hc Hsub].
  destruct (IH _ Hc) as [Hc' Hsub']. split; [done|by etrans].
Qed.

(** X17. [get_tasks_modified_since] returns every task once: no two of
    the returned dicts have the same ['gid'], also when a task shows up in
    the lists of several team members, and every returned dict has all of
    ['name'], ['permalink_url'], ['project_name'] and ['notes']. *)
Theorem modified_tasks_are_distinct (team_members : list string)
    (users_api : AsanaApi.fetched AsanaApi.User.t)
    (tasks_api : string → Z → AsanaApi.fetched AsanaApi.RawTask.t) (since : Z) :
  NoDup (Task.gid <$>
           AsanaApi.get_tasks_modified_since team_members users_api tasks_api since)
  ∧ ∀ t, t ∈ AsanaApi.get_tasks_modified_since team_members users_api
               tasks_api since →
      is_Some (Task.name t) ∧ is_Some (Task.permalink_url t)
      ∧ is_Some (Task.project_name t) ∧ is_Some (Task.notes t).
Proof.
  unfold AsanaApi.get_tasks_modified_since.
  destruct (AsanaApi.iterate _ _ _) as [team|e].
  - destruct (members_loop_consistent tasks_api since team ([], ∅))
      as [(_ & Hnd & Hfull) _]; [|done].
    split_and!; [done|constructor|by inversion 1].
  - split; [constructor|by inversion 1].
Qed.

Lemma team_step_spec team_members d u :
  AsanaApi.team_step team_members d u
  = if decide (name_of u ∈ team_members)
    then match AsanaApi.User.gid u with
         | Some g => AsanaApi.Done (dict_set (name_of u) g d)
         | None => AsanaApi.Failed AsanaApi.KeyError
         end
    else AsanaApi.Done d.
Proof. done. Qed.

(** X18. When the directory cannot be read to its end, or a user named in
    [TEAM_MEMBERS] comes without ['gid'], [get_tasks_modified_since]
    returns no task at all, whatever the other team members have. *)
Theorem unreadable_directory_no_tasks (team_members : list string)
    (users_api : AsanaApi.fetched AsanaApi.User.t)
    (tasks_api : string → Z → AsanaApi.fetched AsanaApi.RawTask.t) (since : Z) :
  AsanaApi.broke users_api ≠ None
  ∨ (∃ u, u ∈ AsanaApi.yielded users_api ∧ name_of u ∈ team_members
          ∧ AsanaApi.User.gid u = None) →
  AsanaApi.get_tasks_modified_since team_members users_api tasks_api since = [].
Proof.
  intros Hbad. unfold AsanaApi.get_tasks_modified_since, AsanaApi.iterate.
  destruct Hbad as [Hb|(u & Hu & Hn & Hg)].
  - destruct (AsanaApi.each _ _ _); simpl; [|done].
    by destruct (AsanaApi.broke users_api).
  - assert (∀ d, ∃ e,
      AsanaApi.each (AsanaApi.team_step team_members)
        (AsanaApi.yielded users_api) d = AsanaApi.Failed e) as Hfail.
    { clear -Hu Hn Hg.
      induction (AsanaApi.yielded users_api) as [|u0 us IH]; intros d;
        [by inversion Hu|].
      cbn [AsanaApi.each]. rewrite team_step_spec.
      apply elem_of_cons in Hu as [<-|Hu].
      - rewrite decide_True by done. rewrite Hg. by eexists.
      - destruct (decide (name_of u0 ∈ team_members)); [|simpl; by apply IH].
        destruct (AsanaApi.User.gid u0); [simpl; by apply IH|by eexists]. }
    by destruct (Hfail []) as [e ->].
Qed.

Lemma team_loop_entries team_members users d d' :
  AsanaApi.each (AsanaApi.team_step team_members) users d = AsanaApi.Done d' →
  ∀ n g, (n, g) ∈ d' →
    (n, g) ∈ d
    ∨ ∃ u, u ∈ users ∧ name_of u = n ∧ n ∈ team_members
           ∧ AsanaApi.User.gid u = Some g.
Proof.
  revert d. induction users as [|u users IH]; intros d Hd n g Hin.
  - injection Hd as <-. by left.
  - cbn [AsanaApi.each] in Hd. rewrite team_step_spec in Hd.
    destruct (decide (name_of u ∈ team_members)) as [Ht|Ht].
    + destruct (AsanaApi.User.gid u) as [ug|] eqn:Hg; [|done]. simpl in Hd.
      destruct (IH _ Hd n g Hin) as [Hold|(u' & Hu' & ?)].
      * apply elem_of_dict_set in Hold as [[= -> ->]|?]; [|by left].
        right. exists u. split; [by left|done].
      * right. exists u'. split; [by right|done].
    + simpl in Hd. destruct (IH _ Hd n g Hin) as [?|(u' & Hu' & ?)]; [by left|].
      right. exists u'. split; [by right|done].
Qed.

Lemma until_raise_sources raws st t :
  t ∈ (AsanaApi.until_raise AsanaApi.task_step raws st).1 →
  t ∈ st.1 ∨ ∃ raw, raw ∈ raws ∧ AsanaApi.RawTask.gid raw = Some (Task.gid t).
Proof.
  revert st. induction raws as [|raw raws IH]; intros st Ht; [by left|].
  cbn [AsanaApi.until_raise] in Ht.
  destruct (AsanaApi.task_step st raw) as [st'|e] eqn:E; [|by left].
  destruct (IH _ Ht) as [Hin|(raw' & Hr & Hg)].
  - apply task_step_done in E as (g & Hg & _ & Hnew & _).
    destruct (Hnew _ Hin) as [?|(<- & _)]; [by left|].
    right. exists raw. split; [by left|done].
  - right. exists raw'. split; [by right|done].
Qed.

(** X19. Only tasks of the team: every task [get_tasks_modified_since]
    returns was yielded by [tasks_api] for the identifier of a user of the
    workspace whose name is in [TEAM_MEMBERS]. *)
Theorem modified_tasks_belong_to_team (team_members : list string)
    (users_api : AsanaApi.fetched AsanaApi.User.t)
    (tasks_api : string → Z → AsanaApi.fetched AsanaApi.RawTask.t)
    (since : Z) (t : Task.t) :
  t ∈ AsanaApi.get_tasks_modified_since team_members users_api tasks_api since →
  ∃ u user_gid raw,
    u ∈ AsanaApi.yielded users_api
    ∧ name_of u ∈ team_members
    ∧ AsanaApi.User.gid u = Some user_gid
    ∧ raw ∈ AsanaApi.yielded (tasks_api user_gid since)
    ∧ AsanaApi.RawTask.gid raw = Some (Task.gid t).
Proof.
  unfold AsanaApi.get_tasks_modified_since, AsanaApi.iterate.
  destruct (AsanaApi.each _ _ _) as [team|e] eqn:E; simpl; [|by inversion 1].
  destruct (AsanaApi.broke users_api); [by inversion 1|].
  pose proof (team_loop_entries _ _ _ _ E) as Hteam.
  assert (∀ st,
    t ∈ (foldl (AsanaApi.member_step tasks_api since) st team).1 →
    t ∈ st.1
    ∨ ∃ m raw, m ∈ team ∧ raw ∈ AsanaApi.yielded (tasks_api m.2 since)
               ∧ AsanaApi.RawTask.gid raw = Some (Task.gid t)) as Hloop.
  { clear. induction team as [|m team IH]; intros st Ht; [by left|].
    cbn [foldl] in Ht. destruct (IH _ Ht) as [Hin|(m' & raw & Hm' & Hr)].
    - unfold AsanaApi.member_step in Hin.
      apply until_raise_sources in Hin as [?|(raw & Hr & Hg)]; [by left|].
      right. exists m, raw. split; [by left|done].
    - right. exists m', raw. split; [by right|done]. }
  intros [Hnil|([n g] & raw & Hm & Hr & Hg)]%Hloop; [by inversion Hnil|].
  destruct (Hteam n g Hm) as [Hnil|(u & Hu & <- & Ht & Hug)]; [by inversion Hnil|].
  exists u, g, raw. done.
Qed.

Lemma elem_of_dict_set_new k v d : (k, v) ∈ dict_set k v d.
Proof.
  induction d as [|[k' v'] d IH]; [by left|]. cbn [dict_set].
  destruct (String.eqb k' k); [by left|by right].
Qed.

Lemma elem_of_dict_set_old k v d k0 v0 :
  (k0, v0) ∈ d → k0 ≠ k → (k0, v0) ∈ dict_set k v d.
Proof.
  intros Hin Hne. induction d as [|[k' v'] d IH]; [by inversion Hin|].
  cbn [dict_set]. destruct (String.eqb k' k) eqn:E.
  - apply String.eqb_eq in E as ->.
    apply elem_of_cons in Hin as [[= -> ->]|Hin]; [done|by right].
  - apply elem_of_cons in Hin as [->|Hin]; [by left|]. right. by apply IH.
Qed.

Lemma team_loop_complete team_members users d :
  NoDup (name_of <$> users) →
  (∀ u, u ∈ users → name_of u ∈ team_members → is_Some (AsanaApi.User.gid u)) →
  ∃ d',
    AsanaApi.each (AsanaApi.team_step team_members) users d = AsanaApi.Done d'
    ∧ (∀ u g, u ∈ users → name_of u ∈ team_members →
         AsanaApi.User.gid u = Some g → (name_of u, g) ∈ d')
    ∧ (∀ n g, (n, g) ∈ d → n ∉ name_of <$> users → (n, g) ∈ d').
Proof.
  revert d. induction users as [|u users IH]; intros d Hnd Hgid.
  - exists d. split_and!; [done|by inversion 1|done].
  - rewrite fmap_cons in Hnd. apply NoDup_cons in Hnd as [Hnotin Hnd].
    assert (∀ u', u' ∈ users → name_of u' ∈ team_members →
              is_Some (AsanaApi.User.gid u')) as Hgid'
      by (intros u' Hu'; apply Hgid; by right).
    cbn [AsanaApi.each]. rewrite team_step_spec.
    destruct (decide (name_of u ∈ team_members)) as [Ht|Ht].
    + destruct (Hgid u) as [ug Hug]; [by left|done|]. rewrite Hug. simpl.
      destruct (IH (dict_set (name_of u) ug d) Hnd Hgid') as (d' & -> & Hnew & Hold).
      exists d'. split_and!; [done| |].
      * intros u' g [->|Hu']%elem_of_cons Hn Hg; [|by apply Hnew].
        rewrite Hug in Hg. injection Hg as <-.
        apply Hold; [apply elem_of_dict_set_new|done].
      * intros n g Hin Hn. try rewrite fmap_cons in Hn.
        apply not_elem_of_cons in Hn as [Hne Hn].
        apply Hold; [|done]. by apply elem_of_dict_set_old.
    + simpl. destruct (IH d Hnd Hgid') as (d' & -> & Hnew & Hold).
      exists d'. split_and!; [done| |].
      * intros u' g [->|Hu']%elem_of_cons Hn Hg; [done|by apply Hnew].
      * intros n g Hin Hn. try rewrite fmap_cons in Hn.
        apply not_elem_of_cons in Hn as [Hne Hn]. by apply Hold.
Qed.

Lemma until_raise_grows raws st :
  st.2 ⊆ (AsanaApi.until_raise AsanaApi.task_step raws st).2.
Proof.
  revert st. induction raws as [|raw raws IH]; intros st; [done|].
  cbn [AsanaApi.until_raise].
  destruct (AsanaApi.task_step st raw) as [st'|e] eqn:E; [|done].
  apply task_step_done in E as (g & _ & Hs & _).
  etrans; [|apply IH]. rewrite Hs. apply union_subseteq_r.
Qed.

Lemma until_raise_sees_all raws st raw g :
  (∀ r, r ∈ raws → is_Some (AsanaApi.RawTask.gid r)) →
  raw ∈ raws → AsanaApi.RawTask.gid raw = Some g →
  g ∈ (AsanaApi.until_raise AsanaApi.task_step raws st).2.
Proof.
  revert st. induction raws as [|r raws IH]; intros st Hall Hin Hg;
    [by inversion Hin|].
  cbn [AsanaApi.until_raise].
  destruct (AsanaApi.task_step st r) as [st'|e] eqn:E.
  - apply elem_of_cons in Hin as [->|Hin].
    + apply task_step_done in E as (g' & Hg' & Hs & _).
      rewrite Hg in Hg'. injection Hg' as <-.
      apply (until_raise_grows raws st'). rewrite Hs.
      apply elem_of_union_l. by apply elem_of_singleton.
    + apply IH; [|done..]. intros r' Hr'. apply Hall. by right.
  - exfalso. destruct (Hall r) as [gr Hgr]; [by left|].
    destruct st as [tasks seen]. unfold AsanaApi.task_step in E.
    rewrite Hgr in E. by destruct (decide (gr ∈ seen)).
Qed.

Lemma members_loop_grows tasks_api since team st :
  st.2 ⊆ (foldl (AsanaApi.member_step tasks_api since) st team).2.
Proof.
  revert st. induction team as [|m team IH]; intros st; [done|].
  cbn [foldl]. etrans; [|apply IH]. apply until_raise_grows.
Qed.

(** X20. No task of a team member is lost to the failures of others: when
    the directory is read to its end, names in it are unique and every
    user named in [TEAM_MEMBERS] has a ['gid'], every task that [tasks_api]
    yields for such a user, all of whose yielded tasks have a ['gid'], is
    among the returned tasks, whatever happens while the tasks of the other
    members are read. *)
Theorem every_task_of_a_member_is_returned (team_members : list string)
    (users_api : AsanaApi.fetched AsanaApi.User.t)
    (tasks_api : string → Z → AsanaApi.fetched AsanaApi.RawTask.t) (since : Z)
    (u : AsanaApi.User.t) (user_gid : string) (raw : AsanaApi.RawTask.t)
    (g : string) :
  AsanaApi.broke users_api = None →
  NoDup (name_of <$> AsanaApi.yielded users_api) →
  (∀ u', u' ∈ AsanaApi.yielded users_api → name_of u' ∈ team_members →
         is_Some (AsanaApi.User.gid u')) →
  u ∈ AsanaApi.yielded users_api →
  name_of u ∈ team_members →
  AsanaApi.User.gid u = Some user_gid →
  (∀ r, r ∈ AsanaApi.yielded (tasks_api user_gid since) →
        is_Some (AsanaApi.RawTask.gid r)) →
  raw ∈ AsanaApi.yielded (tasks_api user_gid since) →
  AsanaApi.RawTask.gid raw = Some g →
  g ∈ Task.gid <$>
        AsanaApi.get_tasks_modified_since team_members users_api tasks_api since.
Proof.
  intros Hb Hnd Hgid Hu Hn Hug Hall Hraw Hg.
  unfold AsanaApi.get_tasks_modified_since, AsanaApi.iterate.
  destruct (team_loop_complete team_members _ [] Hnd Hgid) as (team & -> & Hnew & _).
  simpl. rewrite Hb.
  pose proof (Hnew u user_gid Hu Hn Hug) as Hm.
  destruct (members_loop_consistent tasks_api since team ([], ∅))
    as [(Hseen & _ & _) _].
  { split_and!; [done|constructor|by inversion 1]. }
  apply (elem_of_list_to_set (C := gset string)). rewrite <- Hseen.
  clear Hseen Hnew.
  generalize (([], ∅) : list Task.t * gset string).
  induction team as [|m team IH]; intros st; [by inversion Hm|].
  cbn [foldl]. apply elem_of_cons in Hm as [<-|Hm]; [|by apply IH].
  apply (members_loop_grows tasks_api since team).
  unfold AsanaApi.member_step. simpl.
  by apply (until_raise_sees_all _ st raw).
Qed.

(** ** The fetching methods at concrete inputs *)

Module Raw.

Definition story_c1 : AsanaApi.Story.t :=
  AsanaApi.Story.Make (Some "C1") (Some (IsoTime 0))
    (AsanaApi.CreatedBy (Some "Alice") (Some Scenario.alice))
    (Some "comment_added") (Some "@Bob can you review this?")
    (Some (Markup [Scenario.at_bob])).

(** A system event; the library sent it without ['gid']. *)
Definition story_assigned : AsanaApi.Story.t :=
  AsanaApi.Story.Make None (Some (IsoTime hour)) AsanaApi.NullCreatedBy
    (Some "assigned") None None.

Definition story_c3 : AsanaApi.Story.t :=
  AsanaApi.Story.Make (Some "C3") (Some (IsoTime (10 * hour)))
    AsanaApi.NoCreatedBy (Some "comment_added") None
    (Some (Markup [Scenario.at_bob])).

(** A comment whose author has been removed: ['created_by'] is [None]. *)
Definition story_orphan : AsanaApi.Story.t :=
  AsanaApi.Story.Make (Some "C2") (Some (IsoTime (5 * hour)))
    AsanaApi.NullCreatedBy (Some "comment_added") (Some "Looks fine.") None.

Definition good_stories (task_gid : string) : AsanaApi.fetched AsanaApi.Story.t :=
  AsanaApi.Fetched [story_c1; story_assigned; story_c3] None.

Definition bad_stories (task_gid : string) : AsanaApi.fetched AsanaApi.Story.t :=
  AsanaApi.Fetched [story_c1; story_orphan; story_c3] None.

Definition user_alice : AsanaApi.User.t :=
  AsanaApi.User.Make (Some "Alice") (Some Scenario.alice).

Definition user_bob : AsanaApi.User.t :=
  AsanaApi.User.Make (Some "Bob") (Some Scenario.bob).

(** A guest the directory lists without ['gid']. *)
Definition user_guest : AsanaApi.User.t :=
  AsanaApi.User.Make (Some "Guest") None.

Definition directory : AsanaApi.fetched AsanaApi.User.t :=
  AsanaApi.Fetched [user_alice; user_bob] None.


Definition task_w : AsanaApi.RawTask.t :=
  AsanaApi.RawTask.Make (Some "W") (Some "Quarterly report") (Some "")
    (Some [Some "Reporting"]) None.

Definition task_v : AsanaApi.RawTask.t :=
  AsanaApi.RawTask.Make (Some "V") None None None None.

Definition task_nameless : AsanaApi.RawTask.t :=
  AsanaApi.RawTask.Make None (Some "Draft") None None None.

(** Alice's list breaks at a task without ['gid']; Bob's is read whole. *)
Definition tasks_of (user_gid : string) (since : Z)
  : AsanaApi.fetched AsanaApi.RawTask.t :=
  if String.eqb user_gid Scenario.alice
  then AsanaApi.Fetched [task_w; task_nameless; task_v] None
  else AsanaApi.Fetched [task_w; task_v] None.

End Raw.

Lemma comment_stories_become_comments_witness :
  AsanaApi.get_stories_for_task Raw.good_stories "W"
  = comment_of <$> filter is_comment (AsanaApi.yielded (Raw.good_stories "W")).
Proof.
  apply (comment_stories_become_comments Raw.good_stories "W").
  - reflexivity.
  - intros s Hs.
    repeat (apply elem_of_cons in Hs as [->|Hs];
            [first [ by intros Hc; discriminate Hc
                   | by intros _ [Hm|Hm]; discriminate Hm ]|]).
    by inversion Hs.
Defined.

Lemma one_bad_story_hides_the_work_item_witness :
  AsanaApi.get_stories_for_task Raw.bad_stories (Task.gid Scenario.W) = []
  ∧ check_task
      (Client (λ name, Some Scenario.bob) (λ since, [Scenario.W])
         (AsanaApi.get_stories_for_task Raw.bad_stories))
      0 [(Scenario.bob, "Bob")] [] Scenario.W
    = Return [].
Proof.
  apply (one_bad_story_hides_the_work_item Raw.bad_stories
           (Client (λ name, Some Scenario.bob) (λ since, [Scenario.W])
              (AsanaApi.get_stories_for_task Raw.bad_stories))
           0 [(Scenario.bob, "Bob")] [] Scenario.W).
  - reflexivity.
  - right. exists Raw.story_orphan. split_and!.
    + right. left.
    + reflexivity.
    + by right.
Defined.

Lemma cached_lookup_is_directory_lookup_witness :
  cache_agrees (AsanaApi.yielded Raw.directory)
    (AsanaApi.get_user_gid_by_name Raw.directory "Bob" ∅).1
  ∧ (∀ u, u ∈ AsanaApi.yielded Raw.directory → name_of u = "Bob" →
       (AsanaApi.get_user_gid_by_name Raw.directory "Bob" ∅).2
       = AsanaApi.User.gid u)
  ∧ ((∀ u, u ∈ AsanaApi.yielded Raw.directory → name_of u ≠ "Bob") →
       (AsanaApi.get_user_gid_by_name Raw.directory "Bob" ∅).2 = None).
Proof.
  apply (cached_lookup_is_directory_lookup Raw.directory "Bob" ∅).
  - apply (bool_decide_unpack _). vm_compute. exact I.
  - intros n g Hn. by rewrite lookup_empty in Hn.
Defined.


Lemma unreadable_directory_no_tasks_witness :
  AsanaApi.get_tasks_modified_since ["Alice"; "Guest"]
    (AsanaApi.Fetched [Raw.user_alice; Raw.user_guest] None) Raw.tasks_of 0
  = [].
Proof.
  apply (unreadable_directory_no_tasks ["Alice"; "Guest"]
           (AsanaApi.Fetched [Raw.user_alice; Raw.user_guest] None)
           Raw.tasks_of 0).
  right. exists Raw.user_guest. split_and!.
  - right. left.
  - right. left.
  - reflexivity.
Defined.

Lemma modified_tasks_belong_to_team_witness :
  ∃ u user_gid raw,
    u ∈ AsanaApi.yielded Raw.directory
    ∧ name_of u ∈ ["Alice"; "Bob"]
    ∧ AsanaApi.User.gid u = Some user_gid
    ∧ raw ∈ AsanaApi.yielded (Raw.tasks_of user_gid 0)
    ∧ AsanaApi.RawTask.gid raw
      = Some (Task.gid
                (Task.Make "V" (Some "Untitled")
                   (Some "https://app.asana.com/0/0/V") (Some "No Project")
                   (Some ""))).
Proof.
  apply (modified_tasks_belong_to_team ["Alice"; "Bob"] Raw.directory
           Raw.tasks_of 0).
  vm_compute. right. left.
Defined.

Lemma every_task_of_a_member_is_returned_witness :
  "V" ∈ Task.gid <$>
          AsanaApi.get_tasks_modified_since ["Alice"; "Bob"] Raw.directory
            Raw.tasks_of 0.
Proof.
  apply (every_task_of_a_member_is_returned ["Alice"; "Bob"] Raw.directory
           Raw.tasks_of 0 Raw.user_bob Scenario.bob Raw.task_v "V").
  - reflexivity.
  - apply (bool_decide_unpack _). vm_compute. exact I.
  - intros u Hu.
    repeat (apply elem_of_cons in Hu as [->|Hu]; [by eexists|]).
    by inversion Hu.
  - right. left.
  - right. left.
  - reflexivity.
  - intros r Hr.
    repeat (apply elem_of_cons in Hr as [->|Hr]; [by eexists|]).
    by inversion Hr.
  - right. left.
  - reflexivity.
Defined.

(* ===================================================================== *)
(** * Drafting and the mention step of the coordinator:
      [src/agents/mention_response_agent.py], [src/coordinator.py]        *)
(* ===================================================================== *)

Module MentionResponseAgent.

(** What [batch_draft_responses] reads of the dict [draft_response]
    returns; [None] is what [dict.get] gives for a missing key. *)
Record draft : Set := Draft {
  draft_suggested_response : option string;
  draft_confidence : option string;
  draft_action_needed : option string;
  draft_reasoning : option string;
}.

(** A mention dict after [batch_draft_responses] has added its four keys. *)
Record drafted : Set := Drafted {
  mention : Mention.t;
  suggested_response : option string;
  response_confidence : option string;
  action_needed : option string;
  response_reasoning : option string;
}.

(** [draft_response] asks the language model; it is an input here, taken
    by the number of the call and the mention.  The method catches every
    exception of its own and always returns a dict. *)
Definition batch_draft_responses (draft_response : nat → Mention.t → draft)
    (mentions : list Mention.t) : list drafted :=
  imap (λ i m,
          let response_data := draft_response i m in
          Drafted m (draft_suggested_response response_data)
                    (draft_confidence response_data)
                    (draft_action_needed response_data)
                    (draft_reasoning response_data))
       mentions.

Definition newline : string := String (ascii_of_nat 10) "".

(** [recent[-4:-1]] *)
Definition before_last {A} (recent : list A) : list A :=
  drop (length recent - 4) (take (length recent - 1) recent).

(** One turn of [for comment in recent[-4:-1]]; characters are the
    [ascii] of the text. *)
Definition context_line (comment : Comment.t) : list string :=
  let author := Comment.author_name comment in
  let text := String.substring 0 250 (Comment.text comment) in
  if String.eqb text "" then []
  else ["- **" +:+ author +:+ "**: " +:+ text].

(** [_build_conversation_context] *)
Definition _build_conversation_context (mention_data : Mention.t) : string :=
  match Mention.recent_comments mention_data with
  | [] => "No recent conversation history available"
  | recent =>
      match before_last recent ≫= context_line with
      | [] => "No prior conversation context"
      | context_lines => String.concat newline context_lines
      end
  end.

End MentionResponseAgent.

#[global] Instance drafted_mention_dict
  : MentionTracker.MentionDict MentionResponseAgent.drafted :=
  λ d, mention_story_gid (MentionResponseAgent.mention d).

Module Coordinator.

Import MentionResponseAgent.

(** What the mention step of [run_daily_brief] leaves: the ledger and the
    log, the list handed on to the report, and the calls it made of
    [create_respond_to_mentions_task]. *)
Record step_result : Type := StepResult {
  ledger : world;
  unanswered_mentions : list drafted;
  task_requests : list (list drafted);
}.

(** Step 4.5 of [run_daily_brief].  [names] and [lookback_hours] are
    [Config.MONITORED_USER_NAMES] and [Config.MENTION_LOOKBACK_HOURS];
    [create] is [self.asana.create_respond_to_mentions_task], which raises,
    returns [None], or returns the dict of the task it created; [wr] and
    [stamp] are the fate and the clock reading of the ledger write. *)
Definition mention_step (names : list string) (lookback_hours : Z)
    (c : client) (now : Z)
    (draft_response : nat → Mention.t → draft)
    (create : list drafted → AsanaApi.attempt (option string))
    (wr : write_outcome) (stamp : string) (w : world) : step_result :=
  match names with
  | [] => StepResult w [] []
  | _ =>
      match get_unanswered_mentions c now names lookback_hours with
      | Raise e =>
          StepResult (logger ERROR "Failed to fetch unanswered mentions" w) [] []
      | Return [] => StepResult w [] []
      | Return all_unanswered =>
          let '(w, filtered) := filter_new_mentions all_unanswered w in
          match filtered with
          | Raise e =>
              StepResult (logger ERROR "Failed to fetch unanswered mentions" w)
                [] []
          | Return new_mentions_for_task =>
              let unanswered_mentions :=
                batch_draft_responses draft_response all_unanswered in
              match new_mentions_for_task with
              | [] => StepResult w unanswered_mentions []
              | _ =>
                  let new_mention_ids : gset key :=
                    list_to_set (mention_story_gid <$> new_mentions_for_task) in
                  let new_mentions_with_drafts :=
                    filter (λ m, mention_story_gid m ∈ new_mention_ids)
                           unanswered_mentions in
                  match create new_mentions_with_drafts with
                  | AsanaApi.Failed e =>
                      StepResult
                        (logger ERROR "Failed to create respond-to-mentions task" w)
                        unanswered_mentions [new_mentions_with_drafts]
                  | AsanaApi.Done None =>
                      StepResult w unanswered_mentions [new_mentions_with_drafts]
                  | AsanaApi.Done (Some task_result) =>
                      let '(w, marked) :=
                        mark_mentions_as_processed wr stamp
                          new_mentions_with_drafts w in
                      match marked with
                      | Return _ =>
                          StepResult w unanswered_mentions
                            [new_mentions_with_drafts]
                      | Raise e =>
                          StepResult
                            (logger ERROR
                               "Failed to create respond-to-mentions task" w)
                            unanswered_mentions [new_mentions_with_drafts]
                      end
                  end
              end
          end
      end
  end.

End Coordinator.

(* ===================================================================== *)
(** * Properties of drafting and of the mention step                     *)
(* ===================================================================== *)

Import MentionResponseAgent.

Lemma before_last_app {A} (pre : list A) a b c d :
  before_last (pre ++ [a; b; c; d]) = [a; b; c].
Proof.
  unfold before_last. rewrite length_app. simpl.
  replace (length pre + 4 - 1)%nat with (length pre + 3)%nat by lia.
  replace (length pre + 4 - 4)%nat with (length pre) by lia.
  rewrite take_app_add'; [|done]. simpl. by rewrite drop_app_length.
Qed.

(** X21. The conversation context of a draft is built from the three
    comments before the last of ['recent_comments'] and from nothing else:
    neither the last recent comment nor any comment before those three has
    any influence on it. *)
Theorem context_is_three_before_last (m m' : Mention.t)
    (pre : list Comment.t) (a b c d d' : Comment.t) :
  Mention.recent_comments m = pre ++ [a; b; c; d] →
  Mention.recent_comments m' = [a; b; c; d'] →
  _build_conversation_context m = _build_conversation_context m'.
Proof.
  intros Hm Hm'. unfold _build_conversation_context.
  rewrite Hm, Hm'.
  pose proof (before_last_app pre a b c d) as E.
  pose proof (before_last_app [] a b c d') as E'. simpl in E'.
  destruct (pre ++ [a; b; c; d]) as [|x l] eqn:Hl.
  - by destruct pre.
  - by rewrite E, E'.
Qed.

Lemma batch_cons dr m l :
  batch_draft_responses dr (m :: l)
  = Drafted m (draft_suggested_response (dr 0%nat m))
      (draft_confidence (dr 0%nat m)) (draft_action_needed (dr 0%nat m))
      (draft_reasoning (dr 0%nat m))
    :: batch_draft_responses (λ i, dr (S i)) l.
Proof. unfold batch_draft_responses. by rewrite imap_cons. Qed.

Lemma batch_filter (P : Mention.t → Prop) `{∀ m, Decision (P m)} dr l :
  mention <$> filter (λ d, P (mention d)) (batch_draft_responses dr l)
  = filter P l.
Proof.
  revert dr. induction l as [|m l IH]; intros dr; [done|].
  rewrite batch_cons, !filter_cons. simpl.
  destruct (decide (P m)); [rewrite fmap_cons; simpl|]; by rewrite IH.
Qed.

Lemma batch_mentions dr (l : list Mention.t) :
  mention <$> batch_draft_responses dr l = l.
Proof.
  revert dr. induction l as [|m l IH]; intros dr; [done|].
  rewrite batch_cons, fmap_cons. simpl. by rewrite IH.
Qed.

Lemma elem_of_batch dr l d :
  d ∈ batch_draft_responses dr l → mention d ∈ l.
Proof.
  revert dr. induction l as [|m l IH]; intros dr; [by inversion 1|].
  rewrite batch_cons. intros [->|Hd]%elem_of_cons; [by left|].
  right. by apply (IH _ Hd).
Qed.

(** The drafted mentions picked by identifier are the drafted versions of
    the mentions [filter_new_mentions] kept. *)
Lemma picked_by_id_are_new (ids : gset key) dr (all : list Mention.t) :
  filter (λ d : drafted,
            mention_story_gid d
            ∈ (list_to_set (mention_story_gid <$> filter (is_new ids) all)
                 : gset key))
         (batch_draft_responses dr all)
  = filter (λ d, is_new ids (mention d)) (batch_draft_responses dr all).
Proof.
  apply filter_ext_in. intros d Hd%elem_of_batch.
  rewrite elem_of_list_to_set, list_elem_of_fmap. split.
  - intros (m & Hg & [Hnew _]%list_elem_of_filter).
    unfold is_new in *. by rewrite <- Hg in Hnew.
  - intros Hnew. exists (mention d). split; [done|].
    by apply list_elem_of_filter.
Qed.

(** The mention step, once the pass has returned some events. *)
Lemma mention_step_returned names lookback_hours c now dr create wr stamp w
    m all :
  names ≠ [] →
  get_unanswered_mentions c now names lookback_hours = Return (m :: all) →
  let wf := (filter_new_mentions (m :: all) w).1 in
  let picked :=
    filter (λ d, is_new (persisted_ids w) (mention d))
           (batch_draft_responses dr (m :: all)) in
  Coordinator.mention_step names lookback_hours c now dr create wr stamp w
  = match filter (is_new (persisted_ids w)) (m :: all) with
    | [] => Coordinator.StepResult wf (batch_draft_responses dr (m :: all)) []
    | _ =>
        match create picked with
        | AsanaApi.Failed _ =>
            Coordinator.StepResult
              (logger ERROR "Failed to create respond-to-mentions task" wf)
              (batch_draft_responses dr (m :: all)) [picked]
        | AsanaApi.Done None =>
            Coordinator.StepResult wf (batch_draft_responses dr (m :: all))
              [picked]
        | AsanaApi.Done (Some _) =>
            Coordinator.StepResult
              (mark_mentions_as_processed wr stamp picked wf).1
              (batch_draft_responses dr (m :: all)) [picked]
        end
    end.
Proof.
  intros Hnames Hget wf picked. unfold Coordinator.mention_step.
  destruct names as [|n names]; [done|]. rewrite Hget.
  destruct (filter_new_mentions_spec (m :: all) w) as [Hr Hf].
  subst wf. destruct (filter_new_mentions (m :: all) w) as [w1 r].
  simpl in Hr, Hf. subst r. simpl.
  destruct (filter (is_new (persisted_ids w)) (m :: all)) as [|m0 new] eqn:Hnew;
    [done|].
  rewrite <- Hnew, picked_by_id_are_new. fold picked.
  destruct (create picked) as [[g|]|e]; [|done|done].
  destruct (mark_spec wr stamp picked w1) as [Hm _].
  destruct (mark_mentions_as_processed wr stamp picked w1) as [w2 r2].
  simpl in Hm. by subst r2.
Qed.

(** X22. The task is asked for the new mentions and for nothing else:
    when the pass returns, the list handed on to the report holds a draft
    for every event of the pass, and [create_respond_to_mentions_task] is
    called at most once, with the drafts of exactly the events
    [filter_new_mentions] keeps, in their order; it is not called when
    there are none. *)
Theorem task_is_requested_for_new_mentions names lookback_hours c now dr create
    wr stamp w all :
  names ≠ [] →
  get_unanswered_mentions c now names lookback_hours = Return all →
  mention <$>
    Coordinator.unanswered_mentions
      (Coordinator.mention_step names lookback_hours c now dr create wr stamp w)
  = all
  ∧ Coordinator.task_requests
      (Coordinator.mention_step names lookback_hours c now dr create wr stamp w)
    = match filter (is_new (persisted_ids w)) all with
      | [] => []
      | _ => [filter (λ d, is_new (persisted_ids w) (mention d))
                (batch_draft_responses dr all)]
      end
  ∧ ∀ l, l ∈ Coordinator.task_requests
               (Coordinator.mention_step names lookback_hours c now dr create
                  wr stamp w) →
      mention <$> l = filter (is_new (persisted_ids w)) all.
Proof.
  intros Hnames Hget.
  pose proof (λ l, batch_mentions dr l) as Hback.
  destruct all as [|m all].
  { unfold Coordinator.mention_step. destruct names; [done|]. rewrite Hget.
    simpl. split_and!; [done..|]. by inversion 1. }
  rewrite (mention_step_returned _ _ _ _ _ _ _ _ _ _ _ Hnames Hget).
  pose proof (batch_filter (is_new (persisted_ids w)) dr (m :: all)) as Hpick.
  destruct (filter (is_new (persisted_ids w)) (m :: all)) as [|m0 new] eqn:Hnew.
  - cbn [Coordinator.unanswered_mentions Coordinator.task_requests].
    split_and!; [apply Hback|done|by inversion 1].
  - destruct (create _) as [[g|]|e];
      cbn [Coordinator.unanswered_mentions Coordinator.task_requests];
      (split_and!; [apply Hback|done|]);
      by intros l ->%list_elem_of_singleton.
Qed.

(** X23. The ledger is written only for mentions a task was created for:
    whatever the step meets, it leaves the ledger file as it found it
    unless [create_respond_to_mentions_task] was called and returned a
    task. *)
Theorem ledger_written_only_after_task names lookback_hours c now dr create
    wr stamp w :
  tracker_file
    (Coordinator.ledger
       (Coordinator.mention_step names lookback_hours c now dr create wr stamp w))
  = tracker_file w
  ∨ ∃ l g,
      Coordinator.task_requests
        (Coordinator.mention_step names lookback_hours c now dr create wr stamp w)
      = [l]
      ∧ create l = AsanaApi.Done (Some g).
Proof.
  destruct names as [|n names]; [by left|].
  destruct (get_unanswered_mentions c now (n :: names) lookback_hours)
    as [[|m all]|e] eqn:Hget.
  - unfold Coordinator.mention_step. rewrite Hget. by left.
  - rewrite (mention_step_returned (n :: names) lookback_hours c now dr create
               wr stamp w m all); [|done..].
    destruct (filter_new_mentions_spec (m :: all) w) as [_ Hf].
    destruct (filter (is_new (persisted_ids w)) (m :: all));
      [left; exact Hf|].
    destruct (create _) as [[g|]|e] eqn:Hc; [|left; exact Hf..].
    right. by eexists _, g.
  - unfold Coordinator.mention_step. rewrite Hget. by left.
Qed.

(** X24. A second run finds nothing to do: after a step whose pass
    returned, whose task, if one was asked for, was created and whose
    ledger write went through, a further step over the same Asana state
    asks for no task and leaves the ledger file as it is, whatever drafts,
    task creation and writes would do. *)
Theorem second_step_requests_nothing names lookback_hours c now dr dr'
    create create' wr' stamp stamp' w all :
  get_unanswered_mentions c now names lookback_hours = Return all →
  (∀ l, l ∈ Coordinator.task_requests
              (Coordinator.mention_step names lookback_hours c now dr create
                 WriteOk stamp w) →
        ∃ g, create l = AsanaApi.Done (Some g)) →
  Coordinator.task_requests
    (Coordinator.mention_step names lookback_hours c now dr' create' wr' stamp'
       (Coordinator.ledger
          (Coordinator.mention_step names lookback_hours c now dr create
             WriteOk stamp w)))
  = []
  ∧ tracker_file
      (Coordinator.ledger
         (Coordinator.mention_step names lookback_hours c now dr' create' wr'
            stamp'
            (Coordinator.ledger
               (Coordinator.mention_step names lookback_hours c now dr create
                  WriteOk stamp w))))
    = tracker_file
        (Coordinator.ledger
           (Coordinator.mention_step names lookback_hours c now dr create
              WriteOk stamp w)).
Proof.
  intros Hget Hcreated.
  destruct names as [|n names]; [done|].
  destruct all as [|m all].
  { unfold Coordinator.mention_step. by rewrite Hget. }
  set (w1 := Coordinator.ledger
               (Coordinator.mention_step (n :: names) lookback_hours c now dr
                  create WriteOk stamp w)) in *.
  assert (filter (is_new (persisted_ids w1)) (m :: all) = []) as Hnone.
  { subst w1. revert Hcreated.
    rewrite (mention_step_returned (n :: names) lookback_hours c now dr create
               WriteOk stamp w m all); [|done..].
    destruct (filter_new_mentions_spec (m :: all) w) as [_ Hf].
    pose proof (batch_filter (is_new (persisted_ids w)) dr (m :: all)) as Hpick.
    destruct (filter (is_new (persisted_ids w)) (m :: all)) as [|m0 new] eqn:Hnew.
    - intros _. simpl. by rewrite !persisted_ids_file, Hf, <- persisted_ids_file.
    - set (picked := filter _ (batch_draft_responses dr (m :: all))) in *.
      destruct (create picked) as [[g|]|e] eqn:Hc; simpl; intros Hcreated.
      + apply filter_none. intros m1 Hm1 [Ht Hn]. apply Hn.
        rewrite persisted_ids_marked.
        rewrite (persisted_ids_file (_ w).1), Hf, <- persisted_ids_file.
        destruct (decide (mention_story_gid m1 ∈ persisted_ids w)) as [?|Hnotin];
          [by apply elem_of_union_l|].
        apply elem_of_union_r.
        assert (m1 ∈ mention <$> picked) as (d & -> & Hd)%list_elem_of_fmap.
        { rewrite Hpick, <- Hnew. by apply list_elem_of_filter. }
        exact (elem_of_mention_ids_of (M:=drafted) picked d Hd Ht).
      + destruct (Hcreated picked) as [g Hg]; [by left|congruence].
      + destruct (Hcreated picked) as [g Hg]; [by left|congruence]. }
  rewrite (mention_step_returned (n :: names) lookback_hours c now dr' create'
             wr' stamp' w1 m all); [|done..].
  rewrite Hnone. simpl. split; [done|].
  by destruct (filter_new_mentions_spec (m :: all) w1) as [_ ->].
Qed.

Lemma for_each_raises {S A} (body : S → A → outcome S) (xs : list A) (s : S) :
  (∃ x, x ∈ xs ∧ ∀ s, ∃ e, body s x = Raise e) →
  ∃ e, for_each body xs s = Raise e.
Proof.
  revert s. induction xs as [|x xs IH]; intros s (x0 & Hin & Hx0).
  - by inversion Hin.
  - cbn [for_each]. destruct (body s x) as [s'|e] eqn:E; [|by eexists].
    cbn [Py.bind]. apply IH. exists x0. split; [|done].
    apply elem_of_cons in Hin as [->|Hin]; [|done].
    destruct (Hx0 s) as [e He]. congruence.
Qed.

(** X25. One comment without ['created_at'] blanks the whole step: when
    at least one configured name resolves and some fetched work item has a
    comment whose ['created_at'] is [None], [get_unanswered_mentions]
    raises, and the mention step hands no mention on to the report, asks
    for no task and leaves the ledger file alone, whatever the other work
    items hold. *)
Theorem undated_comment_blanks_the_step names lookback_hours c now dr create
    wr stamp w (task : Task.t) (comment : Comment.t) :
  foldl (resolve c) [] names ≠ [] →
  task ∈ get_tasks_modified_since c (now - lookback_hours * hour) →
  comment ∈ get_stories_for_task c (Task.gid task) →
  Comment.created_at comment = None →
  (∃ e, get_unanswered_mentions c now names lookback_hours = Raise e)
  ∧ Coordinator.unanswered_mentions
      (Coordinator.mention_step names lookback_hours c now dr create wr stamp w)
    = []
  ∧ Coordinator.task_requests
      (Coordinator.mention_step names lookback_hours c now dr create wr stamp w)
    = []
  ∧ tracker_file
      (Coordinator.ledger
         (Coordinator.mention_step names lookback_hours c now dr create wr
            stamp w))
    = tracker_file w.
Proof.
  intros Hmon Htask Hc Hnone.
  assert (∃ e, get_unanswered_mentions c now names lookback_hours = Raise e)
    as [e He].
  { unfold get_unanswered_mentions.
    destruct (foldl (resolve c) [] names) as [|[user_gid user_name] monitored];
      [done|].
    apply for_each_raises. exists task. split; [done|]. intros acc.
    unfold check_task.
    destruct (get_stories_for_task c (Task.gid task)) as [|c0 comments] eqn:E;
      [by inversion Hc|].
    cbn [for_each]. unfold check_user at 1.
    unfold walk. rewrite (walk_loop_raises user_gid (c0 :: comments) [] None);
      [by eexists|].
    exists comment. done. }
  split; [by eexists|].
  unfold Coordinator.mention_step.
  destruct names as [|n names]; [done|]. by rewrite He.
Qed.

(** ** The step at concrete inputs *)

Lemma context_is_three_before_last_witness :
  _build_conversation_context
    (report Scenario.W
       [Scenario.c1; Scenario.c2; Scenario.c1; Scenario.c2; Scenario.c3]
       Scenario.bob "Bob" (MentionData Scenario.c3 (10 * hour)))
  = _build_conversation_context
      (report Scenario.W [Scenario.c2; Scenario.c1; Scenario.c2; Scenario.c_twice]
         Scenario.bob "Bob" (MentionData Scenario.c_twice (11 * hour))).
Proof.
  apply (context_is_three_before_last _ _ [Scenario.c1] Scenario.c2 Scenario.c1
           Scenario.c2 Scenario.c3 Scenario.c_twice); reflexivity.
Defined.

(** Task creation that always succeeds, and drafts without content. *)
Definition creation_ok (mentions : list drafted) : AsanaApi.attempt (option string) :=
  AsanaApi.Done (Some "1200000000000099").

Definition no_draft (i : nat) (m : Mention.t) : draft :=
  Draft None (Some "low") (Some "Manual review required") None.

Lemma task_is_requested_for_new_mentions_witness :
  mention <$>
    Coordinator.unanswered_mentions
      (Coordinator.mention_step ["Bob"] 24
         (Scenario.workspace [Scenario.c1; Scenario.c3]) Scenario.now no_draft
         creation_ok WriteOk "2025-01-06T16:00:00"
         (World true
            (Document (saved_document {[KStr "C3"]} "2025-01-05T16:00:00")) []))
  = [report Scenario.W [Scenario.c1; Scenario.c3] Scenario.bob "Bob"
       (MentionData Scenario.c1 0);
     report Scenario.W [Scenario.c1; Scenario.c3] Scenario.bob "Bob"
       (MentionData Scenario.c3 (10 * hour))]
  ∧ ∀ l, l ∈ Coordinator.task_requests
               (Coordinator.mention_step ["Bob"] 24
                  (Scenario.workspace [Scenario.c1; Scenario.c3]) Scenario.now
                  no_draft creation_ok WriteOk "2025-01-06T16:00:00"
                  (World true
                     (Document
                        (saved_document {[KStr "C3"]} "2025-01-05T16:00:00"))
                     [])) →
      mention <$> l
      = filter
          (is_new
             (persisted_ids
                (World true
                   (Document
                      (saved_document {[KStr "C3"]} "2025-01-05T16:00:00"))
                   [])))
          [report Scenario.W [Scenario.c1; Scenario.c3] Scenario.bob "Bob"
             (MentionData Scenario.c1 0);
           report Scenario.W [Scenario.c1; Scenario.c3] Scenario.bob "Bob"
             (MentionData Scenario.c3 (10 * hour))].
Proof.
  destruct (task_is_requested_for_new_mentions ["Bob"] 24
              (Scenario.workspace [Scenario.c1; Scenario.c3]) Scenario.now
              no_draft creation_ok WriteOk "2025-01-06T16:00:00"
              (World true
                 (Document (saved_document {[KStr "C3"]} "2025-01-05T16:00:00"))
                 [])
              [report Scenario.W [Scenario.c1; Scenario.c3] Scenario.bob "Bob"
                 (MentionData Scenario.c1 0);
               report Scenario.W [Scenario.c1; Scenario.c3] Scenario.bob "Bob"
                 (MentionData Scenario.c3 (10 * hour))])
    as (H1 & _ & H3).
  - discriminate.
  - vm_compute. reflexivity.
  - split; [exact H1|exact H3].
Defined.

Lemma second_step_requests_nothing_witness :
  Coordinator.task_requests
    (Coordinator.mention_step ["Bob"] 24
       (Scenario.workspace [Scenario.c1; Scenario.c3]) Scenario.now no_draft
       (λ _, AsanaApi.Failed AsanaApi.ApiException) DumpRaises
       "2025-01-07T16:00:00"
       (Coordinator.ledger
          (Coordinator.mention_step ["Bob"] 24
             (Scenario.workspace [Scenario.c1; Scenario.c3]) Scenario.now
             no_draft creation_ok WriteOk "2025-01-06T16:00:00" fresh_world)))
  = [].
Proof.
  apply (second_step_requests_nothing ["Bob"] 24
           (Scenario.workspace [Scenario.c1; Scenario.c3]) Scenario.now
           no_draft no_draft creation_ok
           (λ _, AsanaApi.Failed AsanaApi.ApiException) DumpRaises
           "2025-01-06T16:00:00" "2025-01-07T16:00:00" fresh_world
           [report Scenario.W [Scenario.c1; Scenario.c3] Scenario.bob "Bob"
              (MentionData Scenario.c1 0);
            report Scenario.W [Scenario.c1; Scenario.c3] Scenario.bob "Bob"
              (MentionData Scenario.c3 (10 * hour))]).
  - vm_compute. reflexivity.
  - intros l _. by exists "1200000000000099".
Defined.

Lemma undated_comment_blanks_the_step_witness :
  (∃ e,
     get_unanswered_mentions
       (Scenario.workspace [Scenario.c1; Scenario.c2_undated; Scenario.c3])
       Scenario.now ["Bob"] 24 = Raise e)
  ∧ Coordinator.unanswered_mentions
      (Coordinator.mention_step ["Bob"] 24
         (Scenario.workspace [Scenario.c1; Scenario.c2_undated; Scenario.c3])
         Scenario.now no_draft creation_ok WriteOk "2025-01-06T16:00:00"
         fresh_world)
    = []
  ∧ Coordinator.task_requests
      (Coordinator.mention_step ["Bob"] 24
         (Scenario.workspace [Scenario.c1; Scenario.c2_undated; Scenario.c3])
         Scenario.now no_draft creation_ok WriteOk "2025-01-06T16:00:00"
         fresh_world)
    = []
  ∧ tracker_file
      (Coordinator.ledger
         (Coordinator.mention_step ["Bob"] 24
            (Scenario.workspace [Scenario.c1; Scenario.c2_undated; Scenario.c3])
            Scenario.now no_draft creation_ok WriteOk "2025-01-06T16:00:00"
            fresh_world))
    = tracker_file fresh_world.
Proof.
  apply (undated_comment_blanks_the_step ["Bob"] 24
           (Scenario.workspace [Scenario.c1; Scenario.c2_undated; Scenario.c3])
           Scenario.now no_draft creation_ok WriteOk "2025-01-06T16:00:00"
           fresh_world Scenario.W Scenario.c2_undated).
  - by vm_compute.
  - left.
  - right. left.
  - reflexivity.
Defined.

Lemma monitored_user_gids_distinct_witness :
  NoDup (foldl (resolve (Client (λ name, Some Scenario.bob) (λ since, [])
                          (λ task_gid, [])))
           [] ["Bob"; "Robert"]).*1
  ∧ ∀ gid name,
      (gid, name) ∈ foldl (resolve (Client (λ name, Some Scenario.bob)
                                      (λ since, []) (λ task_gid, [])))
                      [] ["Bob"; "Robert"] →
      name ∈ ["Bob"; "Robert"]
      ∧ get_user_gid_by_name
          (Client (λ name, Some Scenario.bob) (λ since, []) (λ task_gid, []))
          name = Some gid
      ∧ gid ≠ "".
Proof.
  exact (monitored_user_gids_distinct
           (Client (λ name, Some Scenario.bob) (λ since, []) (λ task_gid, []))
           ["Bob"; "Robert"]).
Defined.

Lemma modified_tasks_are_distinct_witness :
  NoDup (Task.gid <$>
           AsanaApi.get_tasks_modified_since ["Alice"; "Bob"] Raw.directory
             Raw.tasks_of 0)
  ∧ ∀ t, t ∈ AsanaApi.get_tasks_modified_since ["Alice"; "Bob"] Raw.directory
               Raw.tasks_of 0 →
      is_Some (Task.name t) ∧ is_Some (Task.permalink_url t)
      ∧ is_Some (Task.project_name t) ∧ is_Some (Task.notes t).
Proof.
  exact (modified_tasks_are_distinct ["Alice"; "Bob"] Raw.directory
           Raw.tasks_of 0).
Defined.
